(** * Flashcard generator: the content engine and its page

    A shallow embedding of [app.py]: the declared schema ([Flashcard],
    [FlashcardSet]), [LLMConfig] and the construction of the engine,
    [ContentEngine.generate_flashcards], the handler of the generate button
    and the script of the page around it, followed by the properties of the
    generation contract and of the page.

    The program is Python.  Values are dynamically typed ([pyval]), raised
    exceptions are values of [exn], and what a call does to the outside world
    (the remote invocation, lines printed, widgets shown) is a trace of
    [event]s carried by the monad [py].  The remote model is a function from
    the prompt text to what the call gives back, supplied by the caller.

    What the libraries do is kept apart from what the program does with it.
    The reader of the output parser ([JsonReader]), the prompt class
    ([PromptLibrary]), the text of the format instructions
    ([FormatInstructions]) and the client of the service ([OpenAIClient])
    are interfaces, and the general statements hold for every instance of
    them; the validation of a value against the declared classes is written
    out. *)

From Stdlib Require Import String Ascii ZArith QArith_base List Lia DecimalString.
From stdpp Require Import gmap strings.
Import ListNotations.

#[local] Set Warnings "-register-all".

(** ** Characters and text used throughout *)

Definition dquote : ascii := ascii_of_nat 34.
Definition backslash : ascii := ascii_of_nat 92.
Definition LF : ascii := ascii_of_nat 10.
Definition CR : ascii := ascii_of_nat 13.
Definition TAB : ascii := ascii_of_nat 9.

(** [quoted s] is [s] between two double quotes. *)
Definition quoted (s : string) : string :=
  String dquote (s +:+ String dquote "").

(** Python's [str(n)] for an [int]. *)
Definition str_int (n : Z) : string := NilZero.string_of_int (Z.to_int n).

(** [sub in s]: Python's [sub in s] on text. *)
Fixpoint starts_with (p s : string) : bool :=
  match p, s with
  | EmptyString, _ => true
  | String a p', String b s' => if Ascii.eqb a b then starts_with p' s' else false
  | String _ _, EmptyString => false
  end.

Fixpoint contains (s sub : string) : bool :=
  if starts_with sub s then true
  else match s with
       | EmptyString => false
       | String _ s' => contains s' sub
       end.

(** ** JSON values and plain documents

    The parser of the output side reads the reply into a JSON value and
    validates that value.  How the parsing library gets a value out of a
    reply (it strips code fences, completes a truncated document, reads
    every number and escape) is its own affair and is an interface below
    ([JsonReader]).  This module has the values, and [loads], a reader of
    plain documents: RFC 8259 with integer numbers and the short escapes,
    nothing around the document.  [loads] serves the evaluated runs, whose
    replies are such documents; it says nothing of any other text, and no
    general statement below depends on it.  It is a scanner followed by a
    pushdown parser, both by structural recursion on their input. *)

Module Json.

Inductive json : Type :=
| JNull
| JBool (b : bool)
| JNum (n : Z)
| JString (s : string)
| JArray (items : list json)
| JObject (members : list (string * json))
| JFloat (repr : string).        (* a number with a fraction or an exponent *)

Inductive token : Type :=
| TLBrace | TRBrace | TLBrack | TRBrack | TColon | TComma
| TStr (s : string) | TNum (n : Z) | TTrue | TFalse | TNull.

(** State of the scanner between two characters. *)
Inductive lex_state : Type :=
| LTop
| LStr (acc : string)            (* inside a string, [acc] read so far *)
| LEsc (acc : string)            (* just after a backslash in a string *)
| LNum (neg : bool) (digits : string)
| LWord (acc : string).

Definition is_digit (c : ascii) : bool :=
  let n := nat_of_ascii c in (48 <=? n)%nat && (n <=? 57)%nat.

Definition is_lower (c : ascii) : bool :=
  let n := nat_of_ascii c in (97 <=? n)%nat && (n <=? 122)%nat.

Definition is_space (c : ascii) : bool :=
  let n := nat_of_ascii c in
  (n =? 32)%nat || (n =? 10)%nat || (n =? 13)%nat || (n =? 9)%nat.

Definition snoc (s : string) (c : ascii) : string := s +:+ String c "".

Fixpoint digits_value (acc : Z) (s : string) : Z :=
  match s with
  | EmptyString => acc
  | String c r => digits_value (10 * acc + Z.of_nat (nat_of_ascii c - 48)) r
  end.

(** A JSON integer has at least one digit and no superfluous leading zero. *)
Definition number_token (neg : bool) (digits : string) : option token :=
  match digits with
  | EmptyString => None
  | String c r =>
      if Ascii.eqb c "0" && negb (String.eqb r "") then None
      else let v := digits_value 0 digits in
           Some (TNum (if neg then - v else v)%Z)
  end.

Definition word_token (w : string) : option token :=
  if String.eqb w "true" then Some TTrue
  else if String.eqb w "false" then Some TFalse
  else if String.eqb w "null" then Some TNull
  else None.

(** One character read outside any token. *)
Definition lex_top (c : ascii) : option (list token * lex_state) :=
  if is_space c then Some ([], LTop)
  else if Ascii.eqb c "{" then Some ([TLBrace], LTop)
  else if Ascii.eqb c "}" then Some ([TRBrace], LTop)
  else if Ascii.eqb c "[" then Some ([TLBrack], LTop)
  else if Ascii.eqb c "]" then Some ([TRBrack], LTop)
  else if Ascii.eqb c ":" then Some ([TColon], LTop)
  else if Ascii.eqb c "," then Some ([TComma], LTop)
  else if Ascii.eqb c dquote then Some ([], LStr "")
  else if Ascii.eqb c "-" then Some ([], LNum true "")
  else if is_digit c then Some ([], LNum false (String c ""))
  else if is_lower c then Some ([], LWord (String c ""))
  else None.

Definition unescape (c : ascii) : option ascii :=
  if Ascii.eqb c dquote then Some dquote
  else if Ascii.eqb c backslash then Some backslash
  else if Ascii.eqb c "/" then Some "/"%char
  else if Ascii.eqb c "n" then Some LF
  else if Ascii.eqb c "r" then Some CR
  else if Ascii.eqb c "t" then Some TAB
  else if Ascii.eqb c "b" then Some (ascii_of_nat 8)
  else if Ascii.eqb c "f" then Some (ascii_of_nat 12)
  else None.

Definition lex_step (st : lex_state) (c : ascii)
  : option (list token * lex_state) :=
  match st with
  | LTop => lex_top c
  | LStr acc =>
      if Ascii.eqb c dquote then Some ([TStr acc], LTop)
      else if Ascii.eqb c backslash then Some ([], LEsc acc)
      else Some ([], LStr (snoc acc c))
  | LEsc acc =>
      match unescape c with
      | Some c' => Some ([], LStr (snoc acc c'))
      | None => None
      end
  | LNum neg ds =>
      if is_digit c then Some ([], LNum neg (snoc ds c))
      else match number_token neg ds, lex_top c with
           | Some t, Some (ts, st') => Some (t :: ts, st')
           | _, _ => None
           end
  | LWord w =>
      if is_lower c then Some ([], LWord (snoc w c))
      else match word_token w, lex_top c with
           | Some t, Some (ts, st') => Some (t :: ts, st')
           | _, _ => None
           end
  end.

Definition lex_end (st : lex_state) : option (list token) :=
  match st with
  | LTop => Some []
  | LStr _ | LEsc _ => None
  | LNum neg ds => option_map (fun t => [t]) (number_token neg ds)
  | LWord w => option_map (fun t => [t]) (word_token w)
  end.

Fixpoint lex (st : lex_state) (s : string) : option (list token) :=
  match s with
  | EmptyString => lex_end st
  | String c r =>
      match lex_step st c with
      | Some (ts, st') =>
          match lex st' r with
          | Some rest => Some (ts ++ rest)
          | None => None
          end
      | None => None
      end
  end.

(** The containers being read, innermost first. *)
Inductive frame : Type :=
| FArr (acc : list json)                 (* items read, latest first *)
| FObj (acc : list (string * json))      (* members read, latest first *)
| FKey (k : string).                     (* a key waiting for its value *)

Inductive pmode : Type :=
| PValue        (* a value must follow *)
| PArrStart     (* just after an opening bracket *)
| PObjStart     (* just after an opening brace *)
| PKey          (* after a comma in an object *)
| PColon        (* after a key *)
| PAfter        (* after a value inside a container *)
| PDone (j : json).

(** A value is complete: hand it to the enclosing container. *)
Definition complete (v : json) (stack : list frame)
  : option (pmode * list frame) :=
  match stack with
  | [] => Some (PDone v, [])
  | FArr acc :: st => Some (PAfter, FArr (v :: acc) :: st)
  | FKey k :: FObj acc :: st => Some (PAfter, FObj ((k, v) :: acc) :: st)
  | _ => None
  end.

Definition open_value (t : token) (stack : list frame)
  : option (pmode * list frame) :=
  match t with
  | TNull => complete JNull stack
  | TTrue => complete (JBool true) stack
  | TFalse => complete (JBool false) stack
  | TNum n => complete (JNum n) stack
  | TStr s => complete (JString s) stack
  | TLBrack => Some (PArrStart, FArr [] :: stack)
  | TLBrace => Some (PObjStart, FObj [] :: stack)
  | _ => None
  end.

Definition parse_step (m : pmode) (stack : list frame) (t : token)
  : option (pmode * list frame) :=
  match m, t, stack with
  | PValue, _, _ => open_value t stack
  | PArrStart, TRBrack, FArr [] :: st => complete (JArray []) st
  | PArrStart, _, _ => open_value t stack
  | PObjStart, TRBrace, FObj [] :: st => complete (JObject []) st
  | PObjStart, TStr k, _ => Some (PColon, FKey k :: stack)
  | PKey, TStr k, _ => Some (PColon, FKey k :: stack)
  | PColon, TColon, _ => Some (PValue, stack)
  | PAfter, TComma, FArr _ :: _ => Some (PValue, stack)
  | PAfter, TComma, FObj _ :: _ => Some (PKey, stack)
  | PAfter, TRBrack, FArr acc :: st => complete (JArray (rev acc)) st
  | PAfter, TRBrace, FObj acc :: st => complete (JObject (rev acc)) st
  | _, _, _ => None
  end.

Fixpoint parse_tokens (m : pmode) (stack : list frame) (ts : list token)
  : option json :=
  match ts with
  | [] => match m with PDone j => Some j | _ => None end
  | t :: r =>
      match parse_step m stack t with
      | Some (m', stack') => parse_tokens m' stack' r
      | None => None
      end
  end.

(** [loads s]: the document [s] denotes, or [None] when it is not one. *)
Definition loads (s : string) : option json :=
  match lex LTop s with
  | Some ts => parse_tokens PValue [] ts
  | None => None
  end.

(** [d.get(k)] on the dictionary read from an object: of two members with
    one key the later one stands. *)
Fixpoint jget (k : string) (members : list (string * json)) : option json :=
  match members with
  | [] => None
  | (k', v) :: r =>
      match jget k r with
      | Some v' => Some v'
      | None => if String.eqb k k' then Some v else None
      end
  end.

End Json.
Export Json.

(** ** Python values, exceptions and effects *)

Inductive pyval : Type :=
| VNone
| VStr (s : string)
| VInt (n : Z)
| VList (items : list pyval)
| VObj (cls : string) (attrs : list (string * pyval)).   (* an instance of class [cls] *)

(** What the validation of one field found wrong. *)
Inductive issue : Type :=
| missing          (* a required field is absent *)
| string_type      (* text expected *)
| list_type        (* a list expected *)
| model_type.      (* an object expected *)

(** One step of the path from the validated object to a field. *)
Inductive loc_item : Type :=
| LField (name : string)
| LIndex (i : nat).

Inductive exn : Type :=
| KeyError (names : list string)
| ValueError
| AttributeError (attr : string)
| JSONDecodeError
| ValidationError (title : string) (errors : list (list loc_item * issue))
| OutputParserException (cause : exn)
| TypeError
| RemoteError (kind : string).     (* raised by the remote call: credentials, network, service *)

Inductive result (A : Type) : Type :=
| Ok (a : A)
| Raise (e : exn).
Arguments Ok {A} a.
Arguments Raise {A} e.

(** An f-string before it is rendered: literal text and interpolated values. *)
Inductive fpart : Type :=
| FLit (s : string)
| FVal (v : pyval)
| FExn (e : exn).

Inductive event : Type :=
| Invoke (prompt : string)          (* the remote model is called with this prompt *)
| Print (text : list fpart)         (* [print] *)
| Spinner (text : string)           (* [st.spinner] *)
| Success (body : list fpart)       (* [st.success] *)
| Expander (label : list fpart)     (* [st.expander] *)
| Markdown (body : list fpart)      (* [st.markdown] *)
| Warning (text : string).          (* [st.warning] *)

(** A computation: the events it caused, in order, and how it ended. *)
Definition py (A : Type) : Type := list event * result A.

Definition trace {A} (c : py A) : list event := fst c.
Definition outcome {A} (c : py A) : result A := snd c.

Definition ret {A} (a : A) : py A := ([], Ok a).
Definition emit (ev : event) : py unit := ([ev], Ok tt).
Definition lift {A} (r : result A) : py A := ([], r).

Definition bind {A B} (c : py A) (k : A -> py B) : py B :=
  match c with
  | (t, Ok a) => let (t', r) := k a in (t ++ t', r)
  | (t, Raise e) => (t, Raise e)
  end.

(** [try: body  except Exception as e: handler e]. *)
Definition try_except {A} (body : py A) (handler : exn -> py A) : py A :=
  match body with
  | (t, Ok a) => (t, Ok a)
  | (t, Raise e) => let (t', r) := handler e in (t ++ t', r)
  end.

#[global] Instance py_ret : MRet py := @ret.
#[global] Instance py_bind : MBind py := fun A B k c => bind c k.

(** [o.name] *)
Fixpoint assoc (name : string) (attrs : list (string * pyval)) : option pyval :=
  match attrs with
  | [] => None
  | (n, v) :: r => if String.eqb name n then Some v else assoc name r
  end.

Definition getattr (o : pyval) (name : string) : result pyval :=
  match o with
  | VObj _ attrs =>
      match assoc name attrs with
      | Some v => Ok v
      | None => Raise (AttributeError name)
      end
  | _ => Raise (AttributeError name)
  end.

(** Truth value of an object in a condition. *)
Definition truthy (v : pyval) : bool :=
  match v with
  | VNone => false
  | VStr s => negb (String.eqb s "")
  | VInt n => negb (n =? 0)%Z
  | VList l => match l with [] => false | _ => true end
  | VObj _ _ => true
  end.

(** [isinstance(v, cls)], classes told apart by name. *)
Definition isinstance (v : pyval) (cls : string) : bool :=
  match v with
  | VObj c _ => String.eqb c cls
  | _ => false
  end.

(** ** The declared schema and its validation *)

(** [Field(default, description=...)]: [default = None] stands for the
    ellipsis of a required field. *)
Inductive ftype : Type :=
| TStr                          (* [str] *)
| TOptional (t : ftype)         (* [Optional[t]] *)
| TList (t : ftype)             (* [List[t]] *)
| TModel (m : model)
with model : Type :=
| BaseModel (name : string) (fields : list field)
with field : Type :=
| Field (fname : string) (annotation : ftype) (default : option pyval)
        (description : string).

Definition model_name (m : model) : string :=
  match m with BaseModel n _ => n end.
Definition model_fields (m : model) : list field :=
  match m with BaseModel _ fs => fs end.

Definition Flashcard : model :=
  BaseModel "Flashcard"
    [ Field "front" TStr None
        "The front side of the flashcard with a question or key term";
      Field "back" TStr None
        "The back side of the flashcard with the answer or definition";
      Field "explanation" (TOptional TStr) (Some VNone)
        "An optional explanation or additional context" ].

Definition FlashcardSet : model :=
  BaseModel "FlashcardSet"
    [ Field "title" TStr None
        "The title or topic of the flashcard set";
      Field "flashcards" (TList (TModel Flashcard)) None
        "A list of flashcards in this set" ].

(** What a validation gives: the value, or every failure met with the path
    to it from the object under validation. *)
Inductive checked (A : Type) : Type :=
| Valid (a : A)
| Invalid (errors : list (list loc_item * issue)).
Arguments Valid {A} a.
Arguments Invalid {A} errors.

(** A value put before values checked after it: all valid, or the
    failures of both in order. *)
Definition check_cons {A} (x : checked A) (rest : checked (list A)) : checked (list A) :=
  match x, rest with
  | Valid a, Valid l => Valid (a :: l)
  | Valid _, Invalid es => Invalid es
  | Invalid es, Valid _ => Invalid es
  | Invalid es, Invalid es' => Invalid (es ++ es')
  end.

(** The items of a list, each checked with its index. *)
Fixpoint check_items {A B} (f : nat -> A -> checked B) (i : nat) (l : list A)
  : checked (list B) :=
  match l with
  | [] => Valid []
  | a :: r => check_cons (f i a) (check_items f (S i) r)
  end.

(** Validation of a decoded value against an annotation; [loc] is the path
    to the value.  A [str] field takes text only, an [Optional] one also
    [null], a [List] one an array whose items all validate, a class an
    object.  A field absent from the object takes its default when it has
    one and is reported missing otherwise; members that are no field of the
    class are ignored.  Every failure is reported, not only the first. *)
Fixpoint validate (loc : list loc_item) (t : ftype) (j : json) {struct t}
  : checked pyval :=
  match t with
  | TStr =>
      match j with
      | JString s => Valid (VStr s)
      | _ => Invalid [(loc, string_type)]
      end
  | TOptional t' =>
      match j with
      | JNull => Valid VNone
      | _ => validate loc t' j
      end
  | TList t' =>
      match j with
      | JArray items =>
          match check_items (fun i => validate (loc ++ [LIndex i]) t') 0 items with
          | Valid vs => Valid (VList vs)
          | Invalid es => Invalid es
          end
      | _ => Invalid [(loc, list_type)]
      end
  | TModel (BaseModel name fields) =>
      match j with
      | JObject members =>
          match
            (fix each (fs : list field) : checked (list (string * pyval)) :=
               match fs with
               | [] => Valid []
               | Field fname ann dflt _ :: fs' =>
                   check_cons
                     match jget fname members with
                     | Some v =>
                         match validate (loc ++ [LField fname]) ann v with
                         | Valid x => Valid (fname, x)
                         | Invalid es => Invalid es
                         end
                     | None =>
                         match dflt with
                         | Some d => Valid (fname, d)
                         | None => Invalid [(loc ++ [LField fname], missing)]
                         end
                     end
                     (each fs')
               end) fields
          with
          | Valid attrs => Valid (VObj name attrs)
          | Invalid es => Invalid es
          end
      | _ => Invalid [(loc, model_type)]
      end
  end.

(** [cls.model_validate(obj)]: the instance, or the validation error that
    carries the name of the class and the failures. *)
Definition model_validate (m : model) (j : json) : result pyval :=
  match validate [] (TModel m) j with
  | Valid v => Ok v
  | Invalid errors => Raise (ValidationError (model_name m) errors)
  end.

(** The constructor call of a class with keyword arguments: it validates
    them as [model_validate] does a dictionary. *)
Definition init (m : model) (kwargs : list (string * json)) : result pyval :=
  model_validate m (JObject kwargs).

(** The output parser bound to a model class. *)
Record PydanticOutputParser : Type := { pydantic_object : model }.

(** How the parsing library reads a reply into a JSON value, or the exception
    the parser raises when it finds none.  The library does more than read
    a plain document (code fences, truncated documents), and the engine
    relies on none of it, so the reader is an interface: every statement
    below holds for every reader. *)
Class JsonReader : Type :=
  decode : string -> result json.

Section Parse.

Context {reader : JsonReader}.

(** [parser.parse(text)]: read the text into a value, validate the value
    against the class; a validation failure is reported as the parser's own
    exception. *)
Definition parse (parser : PydanticOutputParser) (text : string) : result pyval :=
  match decode text with
  | Raise e => Raise e
  | Ok j =>
      match model_validate (pydantic_object parser) j with
      | Ok v => Ok v
      | Raise e => Raise (OutputParserException e)
      end
  end.

End Parse.

(** ** Prompt templates

    The template language is Python's format-string syntax as the prompt
    class reads it: [{name}] is a field, [{{] and [}}] stand for one brace.
    What the prompt class does with a template is an interface below
    ([PromptLibrary]).  [template_pieces] reads the plain templates: those
    whose braces pair up and whose fields are plain names.  On a field that
    is empty or a number, or carries a conversion, a format specification,
    an attribute or an index, it gives up: such templates are outside what
    is said of the library here. *)

Inductive piece : Type :=
| PLit (c : ascii)
| PVar (name : string).

Inductive scan : Type :=
| SText
| SOpen                      (* an opening brace was just read *)
| SClose                     (* a closing brace was just read *)
| SField (name : string).    (* inside a field, [name] read so far *)

Definition cons_piece (p : piece) (r : result (list piece)) : result (list piece) :=
  match r with
  | Ok ps => Ok (p :: ps)
  | Raise e => Raise e
  end.

Definition special_in_field (c : ascii) : bool :=
  Ascii.eqb c "!" || Ascii.eqb c ":" || Ascii.eqb c "." ||
  Ascii.eqb c "[" || Ascii.eqb c "]".

Fixpoint all_digits (s : string) : bool :=
  match s with
  | EmptyString => true
  | String c r => is_digit c && all_digits r
  end.

Fixpoint template_pieces (st : scan) (s : string) : result (list piece) :=
  match s with
  | EmptyString =>
      match st with
      | SText => Ok []
      | SOpen => Raise ValueError
      | SClose => Raise ValueError
      | SField _ => Raise ValueError
      end
  | String c r =>
      match st with
      | SText =>
          if Ascii.eqb c "{" then template_pieces SOpen r
          else if Ascii.eqb c "}" then template_pieces SClose r
          else cons_piece (PLit c) (template_pieces SText r)
      | SOpen =>
          if Ascii.eqb c "{" then cons_piece (PLit "{") (template_pieces SText r)
          else if Ascii.eqb c "}" then Raise ValueError
          else if special_in_field c then Raise ValueError
          else template_pieces (SField (String c "")) r
      | SClose =>
          if Ascii.eqb c "}" then cons_piece (PLit "}") (template_pieces SText r)
          else Raise ValueError
      | SField name =>
          if Ascii.eqb c "}" then
            if all_digits name then Raise ValueError
            else cons_piece (PVar name) (template_pieces SText r)
          else if Ascii.eqb c "{" then Raise ValueError
          else if special_in_field c then Raise ValueError
          else template_pieces (SField (snoc name c)) r
      end
  end.

Fixpoint variables (ps : list piece) : list string :=
  match ps with
  | [] => []
  | PLit _ :: r => variables r
  | PVar n :: r => n :: variables r
  end.

(** The text a value is rendered to in a plain field, for the values that
    are text or integers. *)
Definition text_of (v : pyval) : option string :=
  match v with
  | VStr s => Some s
  | VInt n => Some (str_int n)
  | _ => None
  end.

(** The pieces with each field replaced by the text of its value, when
    every field has a value that is text or an integer. *)
Fixpoint fills (env : gmap string pyval) (ps : list piece) : option string :=
  match ps with
  | [] => Some ""
  | PLit c :: r =>
      match fills env r with
      | Some s => Some (String c s)
      | None => None
      end
  | PVar n :: r =>
      match env !! n with
      | Some v =>
          match text_of v, fills env r with
          | Some t, Some s => Some (t +:+ s)
          | _, _ => None
          end
      | None => None
      end
  end.

(** [PromptTemplate(input_variables=..., template=..., partial_variables=...)] *)
Record PromptTemplate : Type := {
  input_variables : list string;
  template : string;
  partial_variables : gmap string pyval
}.

Definition absent (m : gmap string pyval) (name : string) : bool :=
  match m !! name with
  | Some _ => false
  | None => true
  end.

(** The fields of a template that the input has to provide: those that are
    no partial variable. *)
Definition input_fields (partial : gmap string pyval) (ps : list piece) : list string :=
  filter (fun n => absent partial n = true) (variables ps).

(** The prompt class of the library.  [invoke_prompt prompt input] is the
    text [prompt.invoke(input)] gives, or the exception that building the
    prompt object or invoking it ends with: both happen before the remote
    model is reached, and either ends the call there, so one operation
    stands for the two.

    Of the library only this is used: a plain template fills.  When the
    template is plain, the input variables declared are its fields that are
    no partial variable, every key of the input and of the partial variables
    is a field of the template, and every field has a value that is text
    or an integer, the prompt is the template with each field replaced by
    the text of its value, the input going before the partial
    variables. *)
Class PromptLibrary : Type := {
  invoke_prompt : PromptTemplate -> gmap string pyval -> result string;
  invoke_plain :
    forall (prompt : PromptTemplate) (input : gmap string pyval)
           (ps : list piece) (text : string),
      template_pieces SText (template prompt) = Ok ps ->
      (forall n, In n (input_variables prompt) <-> In n (input_fields (partial_variables prompt) ps)) ->
      (forall n, absent input n = false -> In n (variables ps)) ->
      (forall n, absent (partial_variables prompt) n = false -> In n (variables ps)) ->
      fills (input ∪ partial_variables prompt) ps = Some text ->
      invoke_prompt prompt input = Ok text
}.

(** ** The remote model *)

(** What a chat model gives back: a message whose content is text. *)
Record AIMessage : Type := { content : string }.

(** A chat model: the prompt goes out, and either a message comes back or
    the call fails (credentials, network, service) with an exception. *)
Definition chat_model : Type := string -> result AIMessage.

(** [(prompt | llm).invoke(input)] *)
Definition invoke_chain {prompts : PromptLibrary} (prompt : PromptTemplate)
    (llm : chat_model) (input : gmap string pyval) : py AIMessage :=
  text ← lift (invoke_prompt prompt input);
  emit (Invoke text);;
  lift (llm text).

(** ** ContentEngine *)

Definition default_prompt_template : string :=
"
            Generate a set of {num} flashcards on the topic: {topic}.

            For each flashcard, provide:
            1. A front side with a question or key term
            2. A back side with the answer or definition
            3. An optional explanation or additional context

            The flashcards should cover key concepts, terminology, and important facts related to the topic.

            Ensure that the output follows this structure:
            - A title for the flashcard set (the main topic)
            - A list of flashcards, each containing:
              - front: The question or key term
              - back: The answer or definition
              - explanation: Additional context or explanation (optional)
            ".

Definition additional_instructions_header : string := "

Additional Instructions:
".

Definition json_format_footer : string := "

The response should be in JSON format.
{format_instructions}".

(** [if prompt_template is None: prompt_template = ...] *)
Definition base_template (prompt_template : option string) : string :=
  match prompt_template with
  | None => default_prompt_template
  | Some t => t
  end.

(** Lines 73 to 95 of [generate_flashcards]: the template the prompt is
    built from. *)
Definition compose_template (prompt_template custom_instructions : option string)
  : string :=
  let prompt_template := base_template prompt_template in
  let prompt_template :=
    match custom_instructions with
    | Some ci =>
        if negb (String.eqb ci "") then
          prompt_template +:+ additional_instructions_header +:+ ci
        else prompt_template
    | None => prompt_template
    end in
  prompt_template +:+ json_format_footer.

(** The object built by [ContentEngine(llm_config)]: it keeps the model the
    configuration selects, the custom one or the remote client. *)
Record ContentEngine : Type := { llm : chat_model }.

(** [self.llm] *)
Definition self_llm (self : ContentEngine) : chat_model := llm self.

(** Python's [len] and iteration, on the values met here. *)
Definition len (v : pyval) : result Z :=
  match v with
  | VList l => Ok (Z.of_nat (length l))
  | VStr s => Ok (Z.of_nat (String.length s))
  | _ => Raise TypeError
  end.

Definition iterate (v : pyval) : result (list pyval) :=
  match v with
  | VList l => Ok l
  | _ => Raise TypeError
  end.

(** [parser.get_format_instructions()]: the text that describes the schema of
    the parser's class to the remote model.  Its wording belongs to the
    parsing library; the engine only passes it on, so it is an interface
    here, and every result below holds for every text the library may
    give. *)
Class FormatInstructions : Type :=
  get_format_instructions : PydanticOutputParser -> string.

Section Engine.

Context {library : FormatInstructions} {reader : JsonReader} {prompts : PromptLibrary}.

(** [if response_model is None: response_model = FlashcardSet] *)
Definition chosen_model (response_model : option model) : model :=
  match response_model with
  | None => FlashcardSet
  | Some m => m
  end.

(** [llm if llm is not None else self.llm] *)
Definition llm_to_use (self : ContentEngine) (llm : option chat_model) : chat_model :=
  match llm with
  | Some m => m
  | None => self_llm self
  end.

(** The dictionary given to the chain: [num], [topic] and the further
    keyword arguments. *)
Definition chain_input (topic : string) (num : Z) (kwargs : gmap string pyval)
  : gmap string pyval :=
  kwargs ∪ <["topic" := VStr topic]> {[ "num" := VInt num ]}.

(** The prompt object of a call. *)
Definition flashcard_prompt (prompt_template : string) (format_instructions : string)
  : PromptTemplate :=
  {| input_variables := ["num"; "topic"];
     template := prompt_template;
     partial_variables := {[ "format_instructions" := VStr format_instructions ]} |}.

(** [ContentEngine.generate_flashcards].  [kwargs] holds the further keyword
    arguments. *)
Definition generate_flashcards (self : ContentEngine) (topic : string) (num : Z)
    (prompt_template custom_instructions : option string)
    (response_model : option model) (llm : option chat_model)
    (kwargs : gmap string pyval) : py pyval :=
  let response_model := chosen_model response_model in
  let parser := {| pydantic_object := response_model |} in
  let format_instructions := get_format_instructions parser in
  let prompt_template := compose_template prompt_template custom_instructions in
  let flashcard_prompt := flashcard_prompt prompt_template format_instructions in
  let llm_to_use := llm_to_use self llm in
  results ← invoke_chain flashcard_prompt llm_to_use (chain_input topic num kwargs);
  try_except
    (structured_output ← lift (parse parser (content results));
     mret structured_output)
    (fun e =>
       emit (Print [FLit "Error parsing output: "; FExn e]);;
       emit (Print [FLit "Raw output:"]);;
       emit (Print [FVal (VStr (content results))]);;
       lift (init FlashcardSet [("title", JString topic); ("flashcards", JArray [])])).

(** The text of the prompt a call composes, or the exception its
    composition ends with: the prompt object of the call, invoked on the
    input of the call. *)
Definition prompt_text (topic : string) (num : Z)
    (prompt_template custom_instructions : option string)
    (response_model : option model) (kwargs : gmap string pyval) : result string :=
  invoke_prompt
    (flashcard_prompt (compose_template prompt_template custom_instructions)
       (get_format_instructions {| pydantic_object := chosen_model response_model |}))
    (chain_input topic num kwargs).

(** ** The page: what pressing the generate button does *)

(** The loop over the cards, [i] counting from 1. *)
Fixpoint show_flashcards (i : Z) (cards : list pyval) : py unit :=
  match cards with
  | [] => mret tt
  | flashcard :: rest =>
      front ← lift (getattr flashcard "front");
      emit (Expander [FLit "Flashcard "; FVal (VInt i); FLit ": "; FVal front]);;
      back ← lift (getattr flashcard "back");
      emit (Markdown [FLit "**Back:** "; FVal back]);;
      explanation ← lift (getattr flashcard "explanation");
      (if truthy explanation
       then emit (Markdown [FLit "**Explanation:** "; FVal explanation])
       else mret tt);;
      show_flashcards (i + 1) rest
  end.

(** One run of the script from the button on (lines 138 to 152), with the
    values the two input widgets hold and whether the button was pressed. *)
Definition generate_button (content_engine : ContentEngine) (topic : string)
    (num_cards : Z) (pressed : bool) : py unit :=
  if pressed then
    if negb (String.eqb topic "") then
      emit (Spinner "🧠 Generating flashcards...");;
      flashcard_set ← generate_flashcards content_engine topic num_cards
                        None None None None ∅;
      cards ← lift (getattr flashcard_set "flashcards");
      n ← lift (len cards);
      title ← lift (getattr flashcard_set "title");
      emit (Success [FLit "✅ Generated "; FVal (VInt n);
                     FLit " flashcards for '"; FVal title; FLit "'"]);;
      cards ← lift (getattr flashcard_set "flashcards");
      cards ← lift (iterate cards);
      show_flashcards 1 cards
    else
      emit (Warning "⚠️ Please enter a topic for the flashcards.")
  else mret tt.

End Engine.

(** ** Observations on a trace *)

(** The prompts sent to the remote model, in order. *)
Fixpoint invocations (t : list event) : list string :=
  match t with
  | [] => []
  | Invoke p :: r => p :: invocations r
  | _ :: r => invocations r
  end.

Definition is_warning (ev : event) : bool :=
  match ev with
  | Warning _ => true
  | _ => false
  end.

Definition is_print (ev : event) : bool :=
  match ev with
  | Print _ => true
  | _ => false
  end.

(** The record a failed parse is replaced with. *)
Definition fallback (topic : string) : pyval :=
  VObj "FlashcardSet" [("title", VStr topic); ("flashcards", VList [])].

(** What the parse step of a call makes of the message that came back. *)
Definition after_reply {reader : JsonReader} (topic : string)
    (response_model : option model) (results : AIMessage) : py pyval :=
  match parse {| pydantic_object := chosen_model response_model |} (content results) with
  | Ok structured_output => ([], Ok structured_output)
  | Raise e =>
      ([Print [FLit "Error parsing output: "; FExn e];
        Print [FLit "Raw output:"];
        Print [FVal (VStr (content results))]],
       Ok (fallback topic))
  end.

(** The closing lines of a prompt, up to the format instructions. *)
Definition json_format_header : string := "

The response should be in JSON format.
".

(** Text without a brace. *)
Fixpoint brace_free (s : string) : bool :=
  match s with
  | EmptyString => true
  | String c r => negb (Ascii.eqb c "{") && negb (Ascii.eqb c "}") && brace_free r
  end.

(** ** Reference libraries for evaluated runs

    The interfaces of the libraries need an instance where a run is
    evaluated.  Each reference below is written out on a part of the
    library's domain and takes what happens beyond that part as a
    parameter.  The runs evaluated have plain documents or plain sentences
    as replies and plain templates, on which the references do what the
    libraries do. *)

(** A rendering of the parser's class, standing for the library's text where
    a run is evaluated: the class and its fields by name. *)
Definition schema_outline (parser : PydanticOutputParser) : string :=
  model_name (pydantic_object parser) +:+ ": " +:+
  String.concat ", "
    (map (fun f => match f with Field n _ _ _ => n end)
         (model_fields (pydantic_object parser))).

#[global] Instance outline : FormatInstructions := schema_outline.

(** A reader that reads the plain documents with [loads] and leaves every
    other text to [beyond]. *)
Definition reader_on_plain (beyond : string -> result json) : JsonReader :=
  fun text =>
    match loads text with
    | Some j => Ok j
    | None => beyond text
    end.

(** No value is found: the parser's exception for a reply that is no JSON.
    This is what the library does with a sentence, in which no JSON value
    starts; a fenced or truncated document it would read, and no run below
    has such a reply. *)
Definition unreadable : string -> result json :=
  fun _ => Raise (OutputParserException JSONDecodeError).

#[global] Instance plain_reader : JsonReader := reader_on_plain unreadable.

(** The prompt class on plain templates: the prompt filled when every field
    has a value, the [KeyError] of the fields the input lacks otherwise; a
    template that is not plain, and a value that is neither text nor an
    integer, are left to [beyond], and no run below has either. *)
Definition plain_invoke (beyond : PromptTemplate -> gmap string pyval -> result string)
    (prompt : PromptTemplate) (input : gmap string pyval) : result string :=
  match template_pieces SText (template prompt) with
  | Ok ps =>
      match fills (input ∪ partial_variables prompt) ps with
      | Some text => Ok text
      | None =>
          match filter (fun n => absent input n = true)
                  (input_fields (partial_variables prompt) ps) with
          | [] => beyond prompt input
          | names => Raise (KeyError names)
          end
      end
  | Raise _ => beyond prompt input
  end.

(** The reference fills a plain template, as the interface asks. *)
Definition plain_invoke_fills
    (beyond : PromptTemplate -> gmap string pyval -> result string)
    (prompt : PromptTemplate) (input : gmap string pyval)
    (ps : list piece) (text : string) :
  template_pieces SText (template prompt) = Ok ps ->
  (forall n, In n (input_variables prompt)
             <-> In n (input_fields (partial_variables prompt) ps)) ->
  (forall n, absent input n = false -> In n (variables ps)) ->
  (forall n, absent (partial_variables prompt) n = false -> In n (variables ps)) ->
  fills (input ∪ partial_variables prompt) ps = Some text ->
  plain_invoke beyond prompt input = Ok text.
Proof.
  intros Hps _ _ _ Htext. unfold plain_invoke. rewrite Hps, Htext. reflexivity.
Qed.

(** Beyond the plain templates the reference gives a [ValueError], as for
    braces that do not pair up. *)
Definition not_a_template : PromptTemplate -> gmap string pyval -> result string :=
  fun _ _ => Raise ValueError.

#[global] Instance plain_prompts : PromptLibrary :=
  {| invoke_prompt := plain_invoke not_a_template;
     invoke_plain := plain_invoke_fills not_a_template |}.

(** A remote model that answers every prompt with the same text. *)
Definition replies (text : string) : chat_model :=
  fun _ => Ok {| content := text |}.

(** A remote call that fails. *)
Definition unreachable : chat_model :=
  fun _ => Raise (RemoteError "APIConnectionError").

(** A reply that conforms to [FlashcardSet] with an empty title and no card. *)
Definition reply_no_cards : string :=
  "{" +:+ quoted "title" +:+ ": " +:+ quoted "" +:+ ", " +:+
  quoted "flashcards" +:+ ": []}".

Definition card_text (front back : string) : string :=
  "{" +:+ quoted "front" +:+ ": " +:+ quoted front +:+ ", " +:+
  quoted "back" +:+ ": " +:+ quoted back +:+ "}".

(** A reply that conforms to [FlashcardSet] and carries two cards. *)
Definition reply_two_cards : string :=
  "{" +:+ quoted "title" +:+ ": " +:+ quoted "Cells" +:+ ", " +:+
  quoted "flashcards" +:+ ": [" +:+ card_text "Nucleus" "Holds the DNA" +:+ ", " +:+
  card_text "Ribosome" "Builds proteins" +:+ "]}".

(** A caller's own response model. *)
Definition Quiz : model :=
  BaseModel "Quiz"
    [ Field "questions" (TList TStr) None "The questions of the quiz" ].

(** A reply whose only card has no [back]. *)
Definition reply_missing_back : string :=
  "{" +:+ quoted "title" +:+ ": " +:+ quoted "Cells" +:+ ", " +:+
  quoted "flashcards" +:+ ": [{" +:+ quoted "front" +:+ ": " +:+ quoted "Nucleus" +:+ "}]}".

(** ** Notions the statements use *)

(** [len(result.flashcards)] on what a call ended with. *)
Definition count_flashcards (r : result pyval) : result Z :=
  match r with
  | Ok v =>
      match getattr v "flashcards" with
      | Ok cards => len cards
      | Raise e => Raise e
      end
  | Raise e => Raise e
  end.

(** A trace without a warning. *)
Definition quiet (t : list event) : Prop := existsb is_warning t = false.

(** Text read as a template when it has no brace: its characters. *)
Fixpoint literal (s : string) : list piece :=
  match s with
  | EmptyString => []
  | String c r => PLit c :: literal r
  end.

Definition then_pieces (pa : list piece) (r : result (list piece))
  : result (list piece) :=
  match r with
  | Ok pb => Ok (pa ++ pb)
  | Raise e => Raise e
  end.

(** ** Typed views of the declared classes *)

(** A card as the class [Flashcard] declares it. *)
Record card : Type := {
  front : string;
  back : string;
  explanation : option string
}.

Definition optional_text (o : option string) : pyval :=
  match o with
  | Some s => VStr s
  | None => VNone
  end.

(** The instance of [Flashcard] with these attributes. *)
Definition card_value (c : card) : pyval :=
  VObj "Flashcard"
    [("front", VStr (front c)); ("back", VStr (back c));
     ("explanation", optional_text (explanation c))].

(** The instance of [FlashcardSet] with this title and these cards. *)
Definition set_value (title : string) (cards : list card) : pyval :=
  VObj "FlashcardSet"
    [("title", VStr title); ("flashcards", VList (map card_value cards))].

(** What the document of a card says of its explanation, when it says it
    well: nothing or [null], or a text. *)
Definition explanation_member (members : list (string * json))
  : option (option string) :=
  match jget "explanation" members with
  | None => Some None
  | Some JNull => Some None
  | Some (JString s) => Some (Some s)
  | Some _ => None
  end.

(** The card a document denotes, if it is the document of a card. *)
Definition card_of_json (j : json) : option card :=
  match j with
  | JObject members =>
      match jget "front" members, jget "back" members, explanation_member members with
      | Some (JString f), Some (JString b), Some e =>
          Some {| front := f; back := b; explanation := e |}
      | _, _, _ => None
      end
  | _ => None
  end.

(** The cards an array of documents denotes, if each is one of a card. *)
Fixpoint cards_of_json (items : list json) : option (list card) :=
  match items with
  | [] => Some []
  | j :: rest =>
      match card_of_json j, cards_of_json rest with
      | Some c, Some cs => Some (c :: cs)
      | _, _ => None
      end
  end.

(** The set a document denotes, if it is the document of a set. *)
Definition set_of_json (j : json) : option (string * list card) :=
  match j with
  | JObject members =>
      match jget "title" members, jget "flashcards" members with
      | Some (JString title), Some (JArray items) =>
          match cards_of_json items with
          | Some cs => Some (title, cs)
          | None => None
          end
      | _, _ => None
      end
  | _ => None
  end.

(** The set a reply denotes: the set of the value read from it, if that is
    the value of a set. *)
Definition reply_set {reader : JsonReader} (text : string)
  : option (string * list card) :=
  match decode text with
  | Ok j => set_of_json j
  | Raise _ => None
  end.

(** ** What the page shows of a set *)

(** The widgets of one card, numbered [i]. *)
Definition card_view (i : Z) (c : card) : list event :=
  [Expander [FLit "Flashcard "; FVal (VInt i); FLit ": "; FVal (VStr (front c))];
   Markdown [FLit "**Back:** "; FVal (VStr (back c))]]
  ++ match explanation c with
     | Some s =>
         if String.eqb s "" then []
         else [Markdown [FLit "**Explanation:** "; FVal (VStr s)]]
     | None => []
     end.

Fixpoint card_views (i : Z) (cards : list card) : list event :=
  match cards with
  | [] => []
  | c :: rest => card_view i c ++ card_views (i + 1) rest
  end.

(** The success message for [n] cards under [title]. *)
Definition success_message (n : Z) (title : string) : event :=
  Success [FLit "✅ Generated "; FVal (VInt n);
           FLit " flashcards for '"; FVal (VStr title); FLit "'"].

(** Lines 143 to 150: what the handler does with the set once it has it. *)
Definition display (flashcard_set : pyval) : py unit :=
  cards ← lift (getattr flashcard_set "flashcards");
  n ← lift (len cards);
  title ← lift (getattr flashcard_set "title");
  emit (Success [FLit "✅ Generated "; FVal (VInt n);
                 FLit " flashcards for '"; FVal title; FLit "'"]);;
  cards ← lift (getattr flashcard_set "flashcards");
  cards ← lift (iterate cards);
  show_flashcards 1 cards.

Definition is_expander (ev : event) : bool :=
  match ev with
  | Expander _ => true
  | _ => false
  end.

(** The number of expanders in a trace. *)
Fixpoint count_expanders (t : list event) : nat :=
  match t with
  | [] => 0
  | ev :: r => (if is_expander ev then 1 else 0) + count_expanders r
  end.

(** ** The prompt of the default template *)

(** The default template around its two fields. *)
Definition default_before_num : string := "
            Generate a set of ".

Definition default_before_topic : string := " flashcards on the topic: ".

Definition default_after_topic : string := ".

            For each flashcard, provide:
            1. A front side with a question or key term
            2. A back side with the answer or definition
            3. An optional explanation or additional context

            The flashcards should cover key concepts, terminology, and important facts related to the topic.

            Ensure that the output follows this structure:
            - A title for the flashcard set (the main topic)
            - A list of flashcards, each containing:
              - front: The question or key term
              - back: The answer or definition
              - explanation: Additional context or explanation (optional)
            ".

(** The default template with the count and the topic in place, followed by
    the closing lines and the format instructions. *)
Definition default_prompt (topic : string) (num : Z) (format_instructions : string)
  : string :=
  default_before_num +:+ str_int num +:+ default_before_topic +:+ topic +:+
  default_after_topic +:+ json_format_header +:+ format_instructions.

(** The section of a prompt that carries the custom instructions: nothing
    when there are none or they are empty. *)
Definition instructions_section (custom_instructions : option string) : string :=
  match custom_instructions with
  | Some ci =>
      if negb (String.eqb ci "") then additional_instructions_header +:+ ci else ""
  | None => ""
  end.

(** The prompt of the default template with a section of custom
    instructions between the base instructions and the closing lines. *)
Definition default_prompt_with (topic : string) (num : Z)
    (custom_instructions : option string) (format_instructions : string) : string :=
  default_before_num +:+ str_int num +:+ default_before_topic +:+ topic +:+
  default_after_topic +:+ instructions_section custom_instructions +:+
  json_format_header +:+ format_instructions.

(** Custom instructions that hold no brace, absent ones included. *)
Definition no_brace (custom_instructions : option string) : bool :=
  match custom_instructions with
  | Some ci => brace_free ci
  | None => true
  end.

(** A caller's template with a field of its own, to be given by keyword. *)
Definition leveled_template : string :=
  "Make {num} cards about {topic} at {level} level.".


(** ** LLMConfig and the construction of the engine *)

(** A custom model as the configuration holds it: the model, and the truth
    value Python gives the object. *)
Record custom_llm : Type := {
  custom_chat : chat_model;
  custom_truth : bool
}.

Module LLMConfig.

(** The attributes [__init__] stores.  The temperature is kept as the
    decimal number written. *)
Record t : Type := {
  api_key : option string;
  model_name : string;
  max_tokens : Z;
  temperature : Q;
  custom_model : option custom_llm;
  base_url : option string;
  default_headers : option (gmap string string)
}.

(** [LLMConfig()]: every parameter at its default. *)
Definition default : t :=
  {| api_key := None;
     model_name := "gpt-4o-mini";
     max_tokens := 1500;
     temperature := 7 # 10;
     custom_model := None;
     base_url := None;
     default_headers := None |}.

(** [LLMConfig(api_key=key)] *)
Definition with_api_key (key : string) : t :=
  {| api_key := Some key;
     model_name := model_name default;
     max_tokens := max_tokens default;
     temperature := temperature default;
     custom_model := custom_model default;
     base_url := base_url default;
     default_headers := default_headers default |}.

End LLMConfig.

(** [ChatOpenAI(model=..., api_key=..., max_tokens=..., temperature=...,
    base_url=..., default_headers=...)]: the client of the remote service,
    or the exception its construction ends with.  The client belongs to
    the service's library, so it is an interface here. *)
Class OpenAIClient : Type :=
  ChatOpenAI : string -> option string -> Z -> Q -> option string ->
               option (gmap string string) -> result chat_model.

Section Construction.

Context {client : OpenAIClient}.

(** [ContentEngine._initialize_llm]: the custom model when the
    configuration holds one and Python takes it for true, a client of the
    service otherwise. *)
Definition _initialize_llm (llm_config : LLMConfig.t) : result chat_model :=
  match LLMConfig.custom_model llm_config with
  | Some custom =>
      if custom_truth custom then Ok (custom_chat custom)
      else
        ChatOpenAI (LLMConfig.model_name llm_config)
                   (LLMConfig.api_key llm_config)
                   (LLMConfig.max_tokens llm_config)
                   (LLMConfig.temperature llm_config)
                   (LLMConfig.base_url llm_config)
                   (LLMConfig.default_headers llm_config)
  | None =>
      ChatOpenAI (LLMConfig.model_name llm_config)
                 (LLMConfig.api_key llm_config)
                 (LLMConfig.max_tokens llm_config)
                 (LLMConfig.temperature llm_config)
                 (LLMConfig.base_url llm_config)
                 (LLMConfig.default_headers llm_config)
  end.

(** [ContentEngine(llm_config)], [__init__] *)
Definition new_ContentEngine (llm_config : option LLMConfig.t) : result ContentEngine :=
  let llm_config :=
    match llm_config with
    | None => LLMConfig.default
    | Some c => c
    end in
  match _initialize_llm llm_config with
  | Ok m => Ok {| llm := m |}
  | Raise e => Raise e
  end.

End Construction.

(** ** The script of the page *)

(** What one run of the script puts on the page, in order. *)
Inductive page_event : Type :=
| SetPageConfig (page_title page_icon : string)
| StTitle (text : string)
| StMarkdown (body : string) (unsafe_allow_html : bool)
| StColumns (spec : list Z)
| StTextInput (label placeholder : string)
| StNumberInput (label : string) (min_value max_value value : Z)
| StButton (label : string)
| Shown (ev : event).          (* an event of the button's handler *)

(** What the widgets give back in a run. *)
Record widgets : Type := {
  topic_value : string;          (* [st.text_input] *)
  num_cards_value : Z;           (* [st.number_input] *)
  button_value : bool            (* [st.button] *)
}.

Definition intro_text : string := "
Generate custom flashcards on any topic using AI! Perfect for studying and quick learning.
".

Definition footer_html : string :=
  "
    <div style=" +:+
  quoted "text-align: center; color: #888;" +:+
  ">
        Made with ❤️ by <a href=" +:+
  quoted "https://github.com/satvik314/educhain" +:+
  " target=" +:+
  quoted "_blank" +:+
  ">EduChain</a> | Powered by AI
    </div>
    ".

Definition style_html : string := "
<style>
    .stApp {
        max-width: 800px;
        margin: 0 auto;
    }
    h1 {
        color: #4a4a4a;
    }
    .stButton>button {
        background-color: #4CAF50;
        color: white;
        border-radius: 5px;
    }
    .stExpander {
        background-color: #f0f0f0;
        border-radius: 10px;
        margin-bottom: 15px;
        box-shadow: 0 4px 6px rgba(0, 0, 0, 0.1);
    }
    .stExpander > div:first-child {
        background-color: #e0e0e0;
        border-top-left-radius: 10px;
        border-top-right-radius: 10px;
        padding: 10px;
        font-weight: bold;
        color: #333;
    }
    .stExpander > div:last-child {
        padding: 15px;
    }
    .stTextInput>div>div>input {
        border-radius: 5px;
    }
    .stNumberInput>div>div>input {
        border-radius: 5px;
    }
</style>
".

(** Lines 122 to 136: the page down to the button. *)
Definition page_head : list page_event :=
  [SetPageConfig "EduChain Flashcard Generator" "📚";
   StTitle "📚 educhain Flashcard Generator";
   StMarkdown intro_text false;
   StColumns [3; 1]%Z;
   StTextInput "📝 Enter the topic for flashcards:" "e.g., Python Programming";
   StNumberInput "🔢 Number of cards:" 1 20 5;
   StButton "🚀 Generate Flashcards"].

(** Lines 154 to 204: the footer and the style sheet. *)
Definition page_foot : list page_event :=
  [StMarkdown "---" false;
   StMarkdown footer_html true;
   StMarkdown style_html true].

Section Script.

Context {library : FormatInstructions} {reader : JsonReader} {prompts : PromptLibrary}
        {client : OpenAIClient}.

(** One run of the whole script, from the secrets of the deployment and the
    state of the widgets.  The configuration and the engine come first
    (lines 119 and 120): a secret that is missing is the [KeyError] of the
    lookup, and the engine is built with the key and every other parameter
    at its default.  An exception ends the run where it is raised. *)
Definition script (secrets : gmap string string) (w : widgets)
  : list page_event * result unit :=
  match secrets !! "OPENAI_API_KEY" with
  | None => ([], Raise (KeyError ["OPENAI_API_KEY"]))
  | Some key =>
      match new_ContentEngine (Some (LLMConfig.with_api_key key)) with
      | Raise e => ([], Raise e)
      | Ok content_engine =>
          match generate_button content_engine (topic_value w) (num_cards_value w)
                  (button_value w) with
          | (t, Ok _) => (page_head ++ map Shown t ++ page_foot, Ok tt)
          | (t, Raise e) => (page_head ++ map Shown t, Raise e)
          end
      end
  end.

End Script.

(** A reply of two items, the second without its [back]. *)
Definition reply_second_card_bad : string :=
  "{" +:+ quoted "title" +:+ ": " +:+ quoted "Cells" +:+ ", " +:+
  quoted "flashcards" +:+ ": [" +:+ card_text "Nucleus" "Holds the DNA" +:+ ", {" +:+
  quoted "front" +:+ ": " +:+ quoted "Ribosome" +:+ "}]}".

(** A client library whose clients all behave as the given model. *)
Definition client_of (m : chat_model) : OpenAIClient :=
  fun _ _ _ _ _ _ => Ok m.

(** * Properties *)

(** ** The monad *)

Lemma bind_lift_ok {A B} (a : A) (k : A -> py B) :
  (x ← lift (Ok a); k x) = k a.
Proof. unfold mbind, py_bind, bind, lift. destruct (k a); reflexivity. Qed.

Lemma bind_emit {B} (ev : event) (k : py B) :
  (emit ev;; k) = (ev :: trace k, outcome k).
Proof. unfold mbind, py_bind, bind, emit. destruct k; reflexivity. Qed.

Lemma trace_bind {A B} (c : py A) (k : A -> py B) :
  trace (x ← c; k x) =
  trace c ++ match outcome c with
             | Ok a => trace (k a)
             | Raise _ => []
             end.
Proof.
  destruct c as [t [a | e]]; unfold mbind, py_bind, bind; simpl.
  - destruct (k a); reflexivity.
  - symmetry; apply app_nil_r.
Qed.

(** ** The fallback record *)

Lemma init_fallback (topic : string) :
  init FlashcardSet [("title", JString topic); ("flashcards", JArray [])]
  = Ok (fallback topic).
Proof. reflexivity. Qed.

(** ** Text and templates *)

Lemma append_cons c a b : String c a +:+ b = String c (a +:+ b).
Proof. reflexivity. Qed.

Lemma append_nil_r (a : string) : a +:+ "" = a.
Proof.
  induction a as [ | x a IH]; [reflexivity | ].
  rewrite append_cons, IH. reflexivity.
Qed.

Lemma append_assoc (a b c : string) : (a +:+ b) +:+ c = a +:+ b +:+ c.
Proof.
  induction a as [ | x a IH]; [reflexivity | ].
  rewrite !append_cons, IH. reflexivity.
Qed.

Lemma template_pieces_app (a b : string) :
  forall st pa,
    template_pieces st a = Ok pa ->
    template_pieces st (a +:+ b) = then_pieces pa (template_pieces SText b).
Proof.
  induction a as [ | c a IH]; intros st pa.
  - destruct st; cbn; try discriminate.
    intros [= <-]. change ("" +:+ b) with b.
    destruct (template_pieces SText b); reflexivity.
  - rewrite append_cons. cbn [template_pieces].
    destruct st.
    + destruct (Ascii.eqb c "{"); [apply IH | ].
      destruct (Ascii.eqb c "}"); [apply IH | ].
      destruct (template_pieces SText a) as [ps | e] eqn:Ha; [ | discriminate].
      intros [= <-]. rewrite (IH _ _ Ha).
      destruct (template_pieces SText b); reflexivity.
    + destruct (Ascii.eqb c "{").
      * destruct (template_pieces SText a) as [ps | e] eqn:Ha; [ | discriminate].
        intros [= <-]. rewrite (IH _ _ Ha).
        destruct (template_pieces SText b); reflexivity.
      * destruct (Ascii.eqb c "}"); [discriminate | ].
        destruct (special_in_field c); [discriminate | apply IH].
    + destruct (Ascii.eqb c "}"); [ | discriminate].
      destruct (template_pieces SText a) as [ps | e] eqn:Ha; [ | discriminate].
      intros [= <-]. rewrite (IH _ _ Ha).
      destruct (template_pieces SText b); reflexivity.
    + destruct (Ascii.eqb c "}").
      * destruct (all_digits name); [discriminate | ].
        destruct (template_pieces SText a) as [ps | e] eqn:Ha; [ | discriminate].
        intros [= <-]. rewrite (IH _ _ Ha).
        destruct (template_pieces SText b); reflexivity.
      * destruct (Ascii.eqb c "{"); [discriminate | ].
        destruct (special_in_field c); [discriminate | apply IH].
Qed.

Lemma template_pieces_brace_free (s : string) :
  brace_free s = true -> template_pieces SText s = Ok (literal s).
Proof.
  induction s as [ | c s IH]; [reflexivity | ].
  cbn [brace_free template_pieces literal].
  destruct (Ascii.eqb c "{"); [discriminate | ].
  destruct (Ascii.eqb c "}"); [discriminate | ].
  cbn. intros H. rewrite (IH H). reflexivity.
Qed.

Lemma brace_free_app (a b : string) :
  brace_free (a +:+ b) = brace_free a && brace_free b.
Proof.
  induction a as [ | c a IH]; [reflexivity | ].
  rewrite append_cons. cbn [brace_free]. rewrite IH.
  destruct (Ascii.eqb c "{"), (Ascii.eqb c "}"); reflexivity.
Qed.

Lemma variables_app (pa pb : list piece) :
  variables (pa ++ pb) = variables pa ++ variables pb.
Proof.
  induction pa as [ | [c | n] pa IH]; cbn; [reflexivity | exact IH | ].
  f_equal. exact IH.
Qed.

Lemma variables_literal (s : string) : variables (literal s) = [].
Proof. induction s as [ | c s IH]; [reflexivity | exact IH]. Qed.

Lemma fills_app env (pa pb : list piece) (a b : string) :
  fills env pa = Some a ->
  fills env pb = Some b ->
  fills env (pa ++ pb) = Some (a +:+ b).
Proof.
  intros Ha Hb. revert a Ha.
  induction pa as [ | [c | n] pa IH]; intros a; cbn [fills app].
  - intros [= <-]. exact Hb.
  - destruct (fills env pa) as [s | ]; [ | discriminate].
    intros [= <-]. rewrite (IH _ eq_refl). reflexivity.
  - destruct (env !! n) as [v | ]; [ | discriminate].
    destruct (text_of v) as [t | ]; [ | discriminate].
    destruct (fills env pa) as [s | ]; [ | discriminate].
    intros [= <-]. rewrite (IH _ eq_refl), append_assoc. reflexivity.
Qed.

Lemma fills_literal env (s : string) : fills env (literal s) = Some s.
Proof.
  induction s as [ | c s IH]; [reflexivity | ].
  cbn [literal fills]. rewrite IH. reflexivity.
Qed.

(** The keys of the input of a call without further keyword arguments, and
    of the partial variables of its prompt. *)
Lemma chain_input_keys topic num (n : string) :
  absent (chain_input topic num ∅) n = false -> n = "num" \/ n = "topic".
Proof.
  unfold absent, chain_input. rewrite lookup_union, lookup_empty.
  destruct (String.eqb_spec n "topic") as [-> | Htopic]; [auto | ].
  rewrite lookup_insert_ne by congruence.
  destruct (String.eqb_spec n "num") as [-> | Hnum]; [auto | ].
  rewrite lookup_singleton_ne by congruence. discriminate.
Qed.

Lemma partial_keys (v : pyval) (n : string) :
  absent ({[ "format_instructions" := v ]} : gmap string pyval) n = false ->
  n = "format_instructions".
Proof.
  unfold absent.
  destruct (String.eqb_spec n "format_instructions") as [-> | Hn]; [auto | ].
  rewrite lookup_singleton_ne by congruence. discriminate.
Qed.

(** ** The declared schema, read as a decoder *)

Lemma validate_Flashcard (loc : list loc_item) (j : json) :
  validate loc (TModel Flashcard) j =
  match card_of_json j with
  | Some c => Valid (card_value c)
  | None => validate loc (TModel Flashcard) j
  end.
Proof.
  destruct (card_of_json j) as [c | ] eqn:Hc; [ | reflexivity].
  destruct j as [ | | | | | members | ]; try discriminate.
  cbn [card_of_json] in Hc. cbn [validate Flashcard].
  unfold explanation_member in Hc.
  destruct (jget "front" members) as [[ | | | f | | | ] | ]; try discriminate.
  destruct (jget "back" members) as [[ | | | b | | | ] | ]; try discriminate.
  destruct (jget "explanation" members) as [[ | | | s | | | ] | ]; try discriminate;
    injection Hc as <-; reflexivity.
Qed.

Lemma validate_Flashcard_valid (loc : list loc_item) (j : json) (v : pyval) :
  validate loc (TModel Flashcard) j = Valid v ->
  exists c, card_of_json j = Some c /\ v = card_value c.
Proof.
  destruct j as [ | | | | | members | ]; try discriminate.
  cbn [card_of_json validate Flashcard]. unfold explanation_member.
  destruct (jget "front" members) as [[ | ? | ? | ? | ? | ? | ? ] | ];
    destruct (jget "back" members) as [[ | ? | ? | ? | ? | ? | ? ] | ];
    destruct (jget "explanation" members) as [[ | ? | ? | ? | ? | ? | ? ] | ];
    cbn; try discriminate;
    intros [= <-]; eexists; (split; [reflexivity | reflexivity]).
Qed.

Lemma validate_Flashcard_invalid (loc : list loc_item) (j : json) :
  card_of_json j = None ->
  exists es, validate loc (TModel Flashcard) j = Invalid es.
Proof.
  intros Hc. destruct (validate loc (TModel Flashcard) j) as [v | es] eqn:Hv.
  - destruct (validate_Flashcard_valid _ _ _ Hv) as (c & Hc' & _). congruence.
  - exists es. reflexivity.
Qed.

Lemma validate_cards (loc : list loc_item) (items : list json) :
  forall i,
    match cards_of_json items with
    | Some cs =>
        check_items (fun i => validate (loc ++ [LIndex i]) (TModel Flashcard)) i items
        = Valid (map card_value cs)
    | None =>
        exists es,
          check_items (fun i => validate (loc ++ [LIndex i]) (TModel Flashcard)) i items
          = Invalid es
    end.
Proof.
  induction items as [ | j rest IH]; intros i; [reflexivity | ].
  cbn [cards_of_json check_items]. specialize (IH (S i)).
  destruct (card_of_json j) as [c | ] eqn:Hc.
  - rewrite validate_Flashcard, Hc.
    destruct (cards_of_json rest) as [cs | ].
    + rewrite IH. reflexivity.
    + destruct IH as [es ->]. exists es. reflexivity.
  - destruct (validate_Flashcard_invalid (loc ++ [LIndex i]) j Hc) as [es ->].
    destruct (check_items _ (S i) rest); eexists; reflexivity.
Qed.

Lemma cards_of_json_length (items : list json) (cs : list card) :
  cards_of_json items = Some cs -> length cs = length items.
Proof.
  revert cs. induction items as [ | j rest IH]; intros cs; cbn [cards_of_json].
  - intros [= <-]. reflexivity.
  - destruct (card_of_json j); [ | discriminate].
    destruct (cards_of_json rest) as [cs' | ]; [ | discriminate].
    intros [= <-]. cbn. f_equal. apply IH. reflexivity.
Qed.

Lemma cards_of_json_bad (items : list json) (j : json) :
  In j items -> card_of_json j = None -> cards_of_json items = None.
Proof.
  induction items as [ | j' rest IH]; [intros [] | ].
  intros [-> | Hin] Hbad; cbn [cards_of_json].
  - rewrite Hbad. reflexivity.
  - rewrite (IH Hin Hbad). destruct (card_of_json j'); reflexivity.
Qed.

Lemma validate_FlashcardSet_object (members : list (string * json)) :
  validate [] (TModel FlashcardSet) (JObject members) =
  match
    check_cons
      match jget "title" members with
      | Some v =>
          match validate [LField "title"] TStr v with
          | Valid x => Valid ("title", x)
          | Invalid es => Invalid es
          end
      | None => Invalid [([LField "title"], missing)]
      end
      (check_cons
         match jget "flashcards" members with
         | Some v =>
             match validate [LField "flashcards"] (TList (TModel Flashcard)) v with
             | Valid x => Valid ("flashcards", x)
             | Invalid es => Invalid es
             end
         | None => Invalid [([LField "flashcards"], missing)]
         end
         (Valid []))
  with
  | Valid attrs => Valid (VObj "FlashcardSet" attrs)
  | Invalid es => Invalid es
  end.
Proof. reflexivity. Qed.

Lemma validate_array (loc : list loc_item) (t : ftype) (items : list json) :
  validate loc (TList t) (JArray items) =
  match check_items (fun i => validate (loc ++ [LIndex i]) t) 0 items with
  | Valid vs => Valid (VList vs)
  | Invalid es => Invalid es
  end.
Proof. reflexivity. Qed.

Lemma validate_title (v : json) :
  validate [LField "title"] TStr v =
  match v with
  | JString s => Valid (VStr s)
  | _ => Invalid [([LField "title"], string_type)]
  end.
Proof. reflexivity. Qed.

Lemma validate_flashcards (v : json) :
  match v with
  | JArray items =>
      match cards_of_json items with
      | Some cs =>
          validate [LField "flashcards"] (TList (TModel Flashcard)) v
          = Valid (VList (map card_value cs))
      | None =>
          exists es,
            validate [LField "flashcards"] (TList (TModel Flashcard)) v = Invalid es
      end
  | _ =>
      exists es,
        validate [LField "flashcards"] (TList (TModel Flashcard)) v = Invalid es
  end.
Proof.
  destruct v as [ | | | | items | | ]; try (eexists; reflexivity).
  rewrite validate_array.
  pose proof (validate_cards [LField "flashcards"] items 0) as Hcards.
  destruct (cards_of_json items) as [cs | ].
  - rewrite Hcards. reflexivity.
  - destruct Hcards as [es ->]. eexists; reflexivity.
Qed.

Lemma model_validate_FlashcardSet (j : json) :
  match set_of_json j with
  | Some (title, cs) => model_validate FlashcardSet j = Ok (set_value title cs)
  | None => exists e, model_validate FlashcardSet j = Raise e
  end.
Proof.
  unfold model_validate.
  destruct j as [ | | | | | members | ]; try (eexists; reflexivity).
  rewrite validate_FlashcardSet_object. cbn [set_of_json].
  destruct (jget "flashcards" members) as [listed | ].
  - pose proof (validate_flashcards listed) as Hcards.
    destruct (jget "title" members) as [named | ].
    + rewrite validate_title.
      destruct listed as [ | | | | items | | ];
        try (destruct Hcards as [es ->]; destruct named; eexists; reflexivity).
      destruct (cards_of_json items) as [cs | ].
      * rewrite Hcards. destruct named; first [reflexivity | eexists; reflexivity].
      * destruct Hcards as [es ->]. destruct named; eexists; reflexivity.
    + destruct (validate _ _ listed); eexists; reflexivity.
  - destruct (jget "title" members) as [named | ]; [ | eexists; reflexivity].
    rewrite validate_title. destruct named; eexists; reflexivity.
Qed.

Section ParserFacts.

Context {reader : JsonReader}.

(** What the parser for [FlashcardSet] makes of a reply: the set of the
    value read from it, or an exception when that is no set. *)
Lemma parse_reply_set (text : string) :
  match reply_set text with
  | Some (title, cs) =>
      parse {| pydantic_object := FlashcardSet |} text = Ok (set_value title cs)
  | None => exists e, parse {| pydantic_object := FlashcardSet |} text = Raise e
  end.
Proof.
  unfold reply_set, parse; cbn [pydantic_object].
  destruct (decode text) as [j | e]; [ | eauto].
  pose proof (model_validate_FlashcardSet j) as Hj.
  destruct (set_of_json j) as [[title cs] | ].
  - rewrite Hj. reflexivity.
  - destruct Hj as [e ->]. eauto.
Qed.

(** What a reply parsed for [FlashcardSet] was and what it became. *)
Lemma parse_FlashcardSet (text : string) (v : pyval) :
  parse {| pydantic_object := FlashcardSet |} text = Ok v ->
  exists members title items cards,
    decode text = Ok (JObject members)
    /\ jget "title" members = Some (JString title)
    /\ jget "flashcards" members = Some (JArray items)
    /\ v = set_value title cards
    /\ cards_of_json items = Some cards.
Proof.
  intros Hparse. pose proof (parse_reply_set text) as Hset.
  unfold reply_set in Hset.
  destruct (decode text) as [j | e0] eqn:Hj;
    [ | destruct Hset as [e He]; congruence].
  destruct j as [ | | | | | members | ];
    try (destruct Hset as [e He]; congruence).
  cbn [set_of_json] in Hset.
  destruct (jget "title" members) as [[ | | | title | | | ] | ] eqn:Htitle;
    try (destruct Hset as [e He]; congruence).
  destruct (jget "flashcards" members) as [[ | | | | items | | ] | ] eqn:Hitems;
    try (destruct Hset as [e He]; congruence).
  destruct (cards_of_json items) as [cards | ] eqn:Hcards;
    [ | destruct Hset as [e He]; congruence].
  exists members, title, items, cards.
  split; [reflexivity | ]. split; [assumption | ]. split; [assumption | ].
  split; [congruence | assumption].
Qed.

(** A parsed value is an instance of the class it was parsed for. *)
Lemma parse_isinstance (m : model) (text : string) (v : pyval) :
  parse {| pydantic_object := m |} text = Ok v ->
  isinstance v (model_name m) = true.
Proof.
  unfold parse, model_validate; cbn [pydantic_object].
  destruct (decode text) as [j | e]; [ | discriminate].
  destruct m as [name fields]; cbn [validate model_name].
  destruct j; try discriminate.
  match goal with
  | |- context [match ?each with Valid attrs => Valid (VObj _ attrs) | Invalid es => _ end] =>
      destruct each as [attrs | es]
  end; [ | discriminate].
  intros [= <-]. cbn. apply String.eqb_refl.
Qed.

End ParserFacts.

(** ** Traces without a warning *)

Lemma quiet_app (t1 t2 : list event) : quiet t1 -> quiet t2 -> quiet (t1 ++ t2).
Proof. unfold quiet. rewrite existsb_app. intros -> ->. reflexivity. Qed.

Lemma quiet_lift {A B} (r : result A) (k : A -> py B) :
  (forall a, quiet (trace (k a))) -> quiet (trace (x ← lift r; k x)).
Proof.
  intros Hk. destruct r as [a | e].
  - rewrite bind_lift_ok. apply Hk.
  - reflexivity.
Qed.

Lemma quiet_emit {B} (ev : event) (k : py B) :
  is_warning ev = false -> quiet (trace k) -> quiet (trace (emit ev;; k)).
Proof.
  intros Hev Hk. rewrite bind_emit. unfold quiet. cbn [trace fst existsb].
  rewrite Hev. exact Hk.
Qed.

Lemma quiet_bind {A B} (c : py A) (k : A -> py B) :
  quiet (trace c) -> (forall a, quiet (trace (k a))) -> quiet (trace (x ← c; k x)).
Proof.
  intros Hc Hk. rewrite trace_bind. apply quiet_app; [exact Hc | ].
  destruct (outcome c); [apply Hk | reflexivity].
Qed.

Lemma show_flashcards_quiet (cards : list pyval) :
  forall i, quiet (trace (show_flashcards i cards)).
Proof.
  induction cards as [ | flashcard rest IH]; intros i; [reflexivity | ].
  cbn [show_flashcards].
  apply quiet_lift; intros front.
  apply quiet_emit; [reflexivity | ].
  apply quiet_lift; intros back.
  apply quiet_emit; [reflexivity | ].
  apply quiet_lift; intros explanation.
  apply quiet_bind; [ | intros _; apply IH].
  destruct (truthy explanation); reflexivity.
Qed.

(** ** Filling the default template *)

Lemma fills_literal_then env (a : string) (r : list piece) (s : string) :
  fills env r = Some s -> fills env (literal a ++ r) = Some (a +:+ s).
Proof. intros Hr. apply fills_app; [apply fills_literal | exact Hr]. Qed.

Lemma fills_field_then env (n : string) (v : pyval) (t : string)
    (r : list piece) (s : string) :
  env !! n = Some v -> text_of v = Some t -> fills env r = Some s ->
  fills env (PVar n :: r) = Some (t +:+ s).
Proof. intros Hn Ht Hr. cbn [fills]. rewrite Hn, Ht, Hr. reflexivity. Qed.

(** The default template, read. *)
Lemma default_template_pieces :
  template_pieces SText default_prompt_template
  = Ok (literal default_before_num ++ PVar "num" ::
        literal default_before_topic ++ PVar "topic" ::
        literal default_after_topic).
Proof. vm_compute. reflexivity. Qed.

Lemma footer_pieces :
  template_pieces SText json_format_footer
  = Ok (literal json_format_header ++ [PVar "format_instructions"]).
Proof. vm_compute. reflexivity. Qed.

Lemma compose_default (custom_instructions : option string) :
  compose_template None custom_instructions
  = (default_prompt_template +:+ instructions_section custom_instructions)
    +:+ json_format_footer.
Proof.
  unfold compose_template, instructions_section, base_template.
  destruct custom_instructions as [ci | ]; [destruct (String.eqb ci "") | ];
    cbn [negb]; rewrite ?append_nil_r; reflexivity.
Qed.

Lemma instructions_section_brace_free (custom_instructions : option string) :
  no_brace custom_instructions = true ->
  brace_free (instructions_section custom_instructions) = true.
Proof.
  destruct custom_instructions as [ci | ]; [ | reflexivity].
  cbn [no_brace instructions_section]. intros Hci.
  destruct (String.eqb ci ""); [reflexivity | ].
  cbn [negb]. rewrite brace_free_app, Hci. reflexivity.
Qed.

Section EngineFacts.

Context {library : FormatInstructions} {reader : JsonReader} {prompts : PromptLibrary}.

(** A call, path by path: the prompt is composed or the call ends there;
    the remote model is invoked and answers or the call ends there; the
    answer is parsed, or reported and replaced. *)
Lemma generate_flashcards_run self topic num prompt_template custom_instructions
    response_model llm kwargs :
  generate_flashcards self topic num prompt_template custom_instructions
    response_model llm kwargs =
  match prompt_text topic num prompt_template custom_instructions response_model kwargs with
  | Raise e => ([], Raise e)
  | Ok text =>
      match llm_to_use self llm text with
      | Raise e => ([Invoke text], Raise e)
      | Ok results =>
          (Invoke text :: trace (after_reply topic response_model results),
           outcome (after_reply topic response_model results))
      end
  end.
Proof.
  unfold generate_flashcards, prompt_text, invoke_chain.
  destruct (invoke_prompt _ _) as [text | e]; [ | reflexivity].
  rewrite bind_lift_ok.
  unfold after_reply.
  destruct (llm_to_use self llm text) as [results | e]; [ | reflexivity].
  unfold mbind, py_bind, bind, emit, lift, try_except, mret, py_ret, ret; cbn.
  destruct (parse _ (content results)) as [v | e]; reflexivity.
Qed.

Lemma invocations_run self topic num prompt_template custom_instructions
    response_model llm kwargs :
  invocations (trace (generate_flashcards self topic num prompt_template
                        custom_instructions response_model llm kwargs)) =
  match prompt_text topic num prompt_template custom_instructions response_model kwargs with
  | Ok text => [text]
  | Raise _ => []
  end.
Proof.
  rewrite generate_flashcards_run.
  destruct (prompt_text _ _ _ _ _ _) as [text | e]; [ | reflexivity].
  destruct (llm_to_use self llm text) as [results | e]; [ | reflexivity].
  unfold after_reply.
  destruct (parse _ _); reflexivity.
Qed.

(** The prompt of the default template, whenever the section of the custom
    instructions reads as literal text [mid]: the count and the topic are
    put in as they are, between the pieces of the template. *)
Lemma default_prompt_filled topic num custom_instructions response_model (mid : string) :
  template_pieces SText (instructions_section custom_instructions) = Ok (literal mid) ->
  prompt_text topic num None custom_instructions response_model ∅
  = Ok (default_before_num +:+ str_int num +:+ default_before_topic +:+ topic +:+
        default_after_topic +:+ mid +:+ json_format_header +:+
        get_format_instructions {| pydantic_object := chosen_model response_model |}).
Proof.
  intros Hmid. unfold prompt_text.
  set (fi := get_format_instructions _).
  set (pd := literal default_before_num ++ PVar "num" ::
             literal default_before_topic ++ PVar "topic" ::
             literal default_after_topic).
  set (pf := literal json_format_header ++ [PVar "format_instructions"]).
  assert (Hps : template_pieces SText (compose_template None custom_instructions)
                = Ok ((pd ++ literal mid) ++ pf)).
  { rewrite compose_default.
    rewrite (template_pieces_app _ _ _ _
               (eq_trans (template_pieces_app _ _ _ _ default_template_pieces)
                         (f_equal _ Hmid))).
    rewrite footer_pieces. reflexivity. }
  assert (Hvars : variables ((pd ++ literal mid) ++ pf)
                  = ["num"; "topic"; "format_instructions"]).
  { subst pd pf. rewrite !variables_app. cbn [variables].
    rewrite !variables_app. cbn [variables].
    rewrite !variables_literal. reflexivity. }
  set (env := chain_input topic num ∅ ∪
              ({[ "format_instructions" := VStr fi ]} : gmap string pyval)).
  assert (Hnum : env !! "num" = Some (VInt num)) by (vm_compute; reflexivity).
  assert (Htopic : env !! "topic" = Some (VStr topic)) by (vm_compute; reflexivity).
  assert (Hfi : env !! "format_instructions" = Some (VStr fi))
    by (vm_compute; reflexivity).
  apply (invoke_plain _ _ ((pd ++ literal mid) ++ pf)).
  - exact Hps.
  - intros n. cbn [input_variables partial_variables flashcard_prompt].
    unfold input_fields. rewrite Hvars.
    assert (Hkept : filter (fun n => absent ({[ "format_instructions" := VStr fi ]}
                                               : gmap string pyval) n = true)
                      ["num"; "topic"; "format_instructions"] = ["num"; "topic"])
      by (vm_compute; reflexivity).
    rewrite Hkept. reflexivity.
  - intros n Hn. rewrite Hvars.
    destruct (chain_input_keys _ _ _ Hn) as [-> | ->]; cbn; auto.
  - intros n Hn. rewrite Hvars.
    rewrite (partial_keys _ _ Hn). cbn; auto.
  - cbn [partial_variables flashcard_prompt]. fold env.
    assert (Hpd : fills env pd
                  = Some (default_before_num +:+ str_int num +:+ default_before_topic +:+
                          topic +:+ default_after_topic)).
    { subst pd.
      apply fills_literal_then, (fills_field_then _ _ _ _ _ _ Hnum eq_refl).
      apply fills_literal_then, (fills_field_then _ _ _ _ _ _ Htopic eq_refl).
      apply fills_literal. }
    assert (Hpf : fills env pf = Some (json_format_header +:+ fi +:+ "")).
    { subst pf.
      apply fills_literal_then, (fills_field_then _ _ _ _ _ _ Hfi eq_refl).
      reflexivity. }
    rewrite (fills_app _ _ _ _ _ (fills_app _ _ _ _ _ Hpd (fills_literal _ mid)) Hpf).
    rewrite append_nil_r, !append_assoc. reflexivity.
Qed.

Lemma default_prompt_text_with topic num custom_instructions response_model :
  no_brace custom_instructions = true ->
  prompt_text topic num None custom_instructions response_model ∅
  = Ok (default_prompt_with topic num custom_instructions
          (get_format_instructions {| pydantic_object := chosen_model response_model |})).
Proof.
  intros Hfree. apply default_prompt_filled, template_pieces_brace_free.
  apply instructions_section_brace_free. exact Hfree.
Qed.

Lemma default_prompt_text topic num response_model :
  prompt_text topic num None None response_model ∅
  = Ok (default_prompt topic num
          (get_format_instructions {| pydantic_object := chosen_model response_model |})).
Proof. apply (default_prompt_text_with topic num None response_model). reflexivity. Qed.

Lemma default_prompt_composes topic num :
  exists text, prompt_text topic num None None None ∅ = Ok text.
Proof. eexists. apply default_prompt_text. Qed.

Lemma generate_flashcards_quiet self topic num prompt_template custom_instructions
    response_model llm kwargs :
  quiet (trace (generate_flashcards self topic num prompt_template
                  custom_instructions response_model llm kwargs)).
Proof.
  rewrite generate_flashcards_run.
  destruct (prompt_text _ _ _ _ _ _) as [text | e]; [ | reflexivity].
  destruct (llm_to_use self llm text) as [results | e]; [ | reflexivity].
  unfold after_reply. destruct (parse _ _); reflexivity.
Qed.

End EngineFacts.

(** ** The contract of [generate_flashcards] *)

Section Contract.

Context {library : FormatInstructions} {reader : JsonReader} {prompts : PromptLibrary}.

(** C1. Whatever the topic and the count, when the text that came back from
    the model does not deserialize into the schema of the call (it is no
    JSON document, a required field is missing, a field has the wrong
    type), [generate_flashcards] does not raise: it prints the failure and
    the raw text, and returns the [FlashcardSet] whose title is the topic
    and whose list of flashcards is empty. *)
Theorem parse_failure_returns_fallback self topic num prompt_template
    custom_instructions response_model llm kwargs text results e :
  prompt_text topic num prompt_template custom_instructions response_model kwargs
    = Ok text ->
  llm_to_use self llm text = Ok results ->
  parse {| pydantic_object := chosen_model response_model |} (content results)
    = Raise e ->
  generate_flashcards self topic num prompt_template custom_instructions
    response_model llm kwargs =
  ([Invoke text;
    Print [FLit "Error parsing output: "; FExn e];
    Print [FLit "Raw output:"];
    Print [FVal (VStr (content results))]],
   Ok (VObj "FlashcardSet" [("title", VStr topic); ("flashcards", VList [])])).
Proof.
  intros Hprompt Hllm Hparse.
  rewrite generate_flashcards_run, Hprompt, Hllm.
  unfold after_reply. rewrite Hparse. reflexivity.
Qed.

(** C2, as the code has it. For every topic and count, when the text that
    came back conforms to the declared schema, [generate_flashcards] returns
    the record made of the value read from it and prints nothing: its title
    is the title of the reply, empty if that one is, and its flashcards are
    as many as the reply lists, whatever the count asked for. *)
Theorem conforming_reply_is_returned self topic num prompt_template
    custom_instructions llm kwargs text results v :
  prompt_text topic num prompt_template custom_instructions None kwargs = Ok text ->
  llm_to_use self llm text = Ok results ->
  parse {| pydantic_object := FlashcardSet |} (content results) = Ok v ->
  generate_flashcards self topic num prompt_template custom_instructions
    None llm kwargs = ([Invoke text], Ok v)
  /\ exists members title items cards,
       decode (content results) = Ok (JObject members)
       /\ jget "title" members = Some (JString title)
       /\ jget "flashcards" members = Some (JArray items)
       /\ getattr v "title" = Ok (VStr title)
       /\ getattr v "flashcards" = Ok (VList cards)
       /\ length cards = length items.
Proof.
  intros Hprompt Hllm Hparse. split.
  - rewrite generate_flashcards_run, Hprompt, Hllm.
    unfold after_reply; cbn [chosen_model]. rewrite Hparse. reflexivity.
  - destruct (parse_FlashcardSet _ _ Hparse)
      as (members & title & items & cards & Hj & Ht & Hi & -> & Hcards).
    exists members, title, items, (map card_value cards).
    repeat split; try assumption.
    rewrite length_map. apply cards_of_json_length. exact Hcards.
Qed.

(** C3, as the code has it. Whenever the remote model answers, the call
    returns a record with a list of flashcards; that list is empty on the
    fallback path of a parse failure, and on success it is as long as the
    list of the reply, which the count asked for does not bound and which
    may be empty. *)
Theorem flashcards_length_by_path self topic num prompt_template
    custom_instructions llm kwargs text results :
  prompt_text topic num prompt_template custom_instructions None kwargs = Ok text ->
  llm_to_use self llm text = Ok results ->
  exists v cards,
    outcome (generate_flashcards self topic num prompt_template custom_instructions
               None llm kwargs) = Ok v
    /\ getattr v "flashcards" = Ok (VList cards)
    /\ match parse {| pydantic_object := FlashcardSet |} (content results) with
       | Raise _ => cards = []
       | Ok _ =>
           exists members items,
             decode (content results) = Ok (JObject members)
             /\ jget "flashcards" members = Some (JArray items)
             /\ length cards = length items
       end.
Proof.
  intros Hprompt Hllm.
  rewrite generate_flashcards_run, Hprompt, Hllm.
  unfold after_reply; cbn [chosen_model].
  destruct (parse _ (content results)) as [v | e] eqn:Hparse.
  - destruct (parse_FlashcardSet _ _ Hparse)
      as (members & title & items & cards & Hj & Ht & Hi & -> & Hcards).
    exists (set_value title cards), (map card_value cards).
    repeat split. exists members, items. repeat split; try assumption.
    rewrite length_map. apply cards_of_json_length. exact Hcards.
  - exists (fallback topic), []. repeat split.
Qed.

(** C4, as the code has it, for custom instructions that hold no brace.
    [generate_flashcards] raises exactly when the prompt is not composed
    from the template and the keyword arguments of the call (no remote call
    is made then) or when the remote call itself fails; a parse failure
    never reaches the caller.  With the default template and no further
    keyword argument the prompt is always composed, the instructions in it
    as they are, and the call raises exactly when the remote call fails. *)
Theorem raises_iff_prompt_or_remote_fails self topic num prompt_template
    custom_instructions response_model llm kwargs e :
  no_brace custom_instructions = true ->
  (outcome (generate_flashcards self topic num prompt_template custom_instructions
              response_model llm kwargs) = Raise e
   <->
   prompt_text topic num prompt_template custom_instructions response_model kwargs
     = Raise e
   \/ exists text,
        prompt_text topic num prompt_template custom_instructions response_model kwargs
          = Ok text
        /\ llm_to_use self llm text = Raise e)
  /\ prompt_text topic num None custom_instructions response_model ∅
     = Ok (default_prompt_with topic num custom_instructions
             (get_format_instructions
                {| pydantic_object := chosen_model response_model |}))
  /\ (outcome (generate_flashcards self topic num None custom_instructions
                 response_model llm ∅) = Raise e
      <->
      llm_to_use self llm
        (default_prompt_with topic num custom_instructions
           (get_format_instructions
              {| pydantic_object := chosen_model response_model |})) = Raise e).
Proof.
  intros Hfree. split; [ | split].
  - rewrite generate_flashcards_run.
    destruct (prompt_text _ _ _ _ _ _) as [text | e1]; cbn.
    + destruct (llm_to_use self llm text) as [results | e2] eqn:Hllm; cbn.
      * unfold after_reply. split.
        -- destruct (parse _ _); discriminate.
        -- intros [H | (text' & [= <-] & H)]; [discriminate | congruence].
      * split.
        -- intros [= <-]. right. exists text. split; [reflexivity | assumption].
        -- intros [H | (text' & [= <-] & H)]; [discriminate | congruence].
    + split.
      * intros [= <-]. left; reflexivity.
      * intros [[= <-] | (text' & H & _)]; [reflexivity | discriminate].
  - apply default_prompt_text_with. exact Hfree.
  - rewrite generate_flashcards_run, (default_prompt_text_with _ _ _ _ Hfree).
    destruct (llm_to_use self llm _) as [results | e'].
    + unfold after_reply. destruct (parse _ _); cbn; split; discriminate.
    + cbn. split; intros [= <-]; reflexivity.
Qed.


(** C6, at instructions with a set written in doubled braces.  The custom
    instructions are appended to the template before its fields are filled,
    so they are read as template text: whatever the topic and the count,
    the prompt carries the braces single, not the instructions as given.
    The same text given as the topic is put in as a value and reaches the
    prompt as it is. *)
Theorem doubled_braces_in_instructions_are_halved topic num response_model :
  prompt_text topic num None (Some "Write sets as {{a, b}}") response_model ∅
  = Ok (default_prompt_with topic num (Some "Write sets as {a, b}")
          (get_format_instructions {| pydantic_object := chosen_model response_model |}))
  /\ prompt_text "Write sets as {{a, b}}" num None None response_model ∅
     = Ok (default_prompt "Write sets as {{a, b}}" num
             (get_format_instructions
                {| pydantic_object := chosen_model response_model |})).
Proof.
  split.
  - apply (default_prompt_filled topic num (Some "Write sets as {{a, b}}") response_model
             (additional_instructions_header +:+ "Write sets as {a, b}")).
    vm_compute. reflexivity.
  - apply default_prompt_text.
Qed.

(** C7. With an empty topic, pressing the button makes no generation call:
    the run shows the warning and nothing else, and no prompt goes out. *)
Theorem empty_topic_only_warns content_engine num_cards :
  generate_button content_engine "" num_cards true
  = ([Warning "⚠️ Please enter a topic for the flashcards."], Ok tt)
  /\ invocations (trace (generate_button content_engine "" num_cards true)) = [].
Proof. split; reflexivity. Qed.

(** C8. With a response model of the caller's own, a parse failure still
    returns the default-schema record: an instance of [FlashcardSet] with
    the topic as title and no flashcard, which is no instance of the model
    asked for, whereas every value parsed with success is one. *)
Theorem custom_model_failure_returns_default_schema self topic num prompt_template
    custom_instructions response_model llm kwargs text results e :
  model_name response_model <> "FlashcardSet" ->
  prompt_text topic num prompt_template custom_instructions (Some response_model) kwargs
    = Ok text ->
  llm_to_use self llm text = Ok results ->
  parse {| pydantic_object := response_model |} (content results) = Raise e ->
  outcome (generate_flashcards self topic num prompt_template custom_instructions
             (Some response_model) llm kwargs)
  = Ok (VObj "FlashcardSet" [("title", VStr topic); ("flashcards", VList [])])
  /\ isinstance (VObj "FlashcardSet" [("title", VStr topic); ("flashcards", VList [])])
       (model_name FlashcardSet) = true
  /\ isinstance (VObj "FlashcardSet" [("title", VStr topic); ("flashcards", VList [])])
       (model_name response_model) = false
  /\ (forall text' v,
        parse {| pydantic_object := response_model |} text' = Ok v ->
        isinstance v (model_name response_model) = true).
Proof.
  intros Hname Hprompt Hllm Hparse.
  rewrite generate_flashcards_run, Hprompt, Hllm.
  unfold after_reply; cbn [chosen_model]. rewrite Hparse.
  split; [reflexivity | ].
  split; [reflexivity | ].
  split.
  - change (String.eqb "FlashcardSet" (model_name response_model) = false).
    apply String.eqb_neq. congruence.
  - intros text' v. apply parse_isinstance.
Qed.

(** C9. The gate of the page looks only at emptiness: for every topic that
    is not the empty string, a single blank included, pressing the button
    starts a generation (the spinner is shown and the prompt composed for
    that topic is sent to the remote model), and no warning is shown. *)
Theorem nonempty_topic_generates content_engine topic num_cards :
  topic <> "" ->
  exists text rest r,
    prompt_text topic num_cards None None None ∅ = Ok text
    /\ generate_button content_engine topic num_cards true
       = (Spinner "🧠 Generating flashcards..." :: Invoke text :: rest, r)
    /\ existsb is_warning
         (trace (generate_button content_engine topic num_cards true)) = false.
Proof.
  intros Hne. apply String.eqb_neq in Hne.
  destruct (default_prompt_composes topic num_cards) as [text Htext].
  unfold generate_button. rewrite Hne. cbn [negb].
  exists text.
  rewrite bind_emit.
  match goal with |- context [trace ?c] => set (run := c) end.
  assert (Hrun : exists rest, trace run = Invoke text :: rest).
  { subst run. rewrite trace_bind, generate_flashcards_run, Htext.
    destruct (llm_to_use _ _ _); cbn; eauto. }
  assert (Hquiet : quiet (trace run)).
  { subst run. apply quiet_bind; [apply generate_flashcards_quiet | ].
    intros flashcard_set.
    apply quiet_lift; intros cards.
    apply quiet_lift; intros n.
    apply quiet_lift; intros title.
    apply quiet_emit; [reflexivity | ].
    apply quiet_lift; intros cards'.
    apply quiet_lift; intros items.
    apply show_flashcards_quiet. }
  clearbody run.
  destruct Hrun as [rest Hrest].
  exists rest, (outcome run). split; [exact Htext | ]. split.
  - rewrite Hrest. reflexivity.
  - exact Hquiet.
Qed.

(** C10. Custom instructions that are the empty string are treated as
    absent ones: nothing is appended between the base template and the
    closing lines, and the template, the prompt and the whole call are those
    of a call without custom instructions. *)
Theorem empty_custom_instructions_as_absent self topic num prompt_template
    response_model llm kwargs :
  compose_template prompt_template (Some "")
  = base_template prompt_template +:+ json_format_footer
  /\ compose_template prompt_template (Some "") = compose_template prompt_template None
  /\ prompt_text topic num prompt_template (Some "") response_model kwargs
     = prompt_text topic num prompt_template None response_model kwargs
  /\ generate_flashcards self topic num prompt_template (Some "") response_model llm kwargs
     = generate_flashcards self topic num prompt_template None response_model llm kwargs.
Proof. repeat split. Qed.

End Contract.

(** * Evaluated runs *)

(** The statement of C1 at a reply whose card lacks its [back]. *)
Lemma parse_failure_returns_fallback_witness :
  exists text,
    generate_flashcards {| llm := replies reply_missing_back |}
      "Cells" 5 None None None None ∅ =
    ([Invoke text;
      Print [FLit "Error parsing output: ";
             FExn (OutputParserException
                     (ValidationError "FlashcardSet"
                        [([LField "flashcards"; LIndex 0; LField "back"], missing)]))];
      Print [FLit "Raw output:"];
      Print [FVal (VStr reply_missing_back)]],
     Ok (VObj "FlashcardSet" [("title", VStr "Cells"); ("flashcards", VList [])])).
Proof.
  eexists.
  apply (parse_failure_returns_fallback
           {| llm := replies reply_missing_back |} "Cells" 5 None None None None ∅
           _ {| content := reply_missing_back |}
           (OutputParserException
              (ValidationError "FlashcardSet"
                 [([LField "flashcards"; LIndex 0; LField "back"], missing)]))).
  - vm_compute. reflexivity.
  - reflexivity.
  - vm_compute. reflexivity.
Defined.

(** C2 fails as stated: a reply that conforms to the schema, with an empty
    title and no card, is returned as it is to a call that asked for 5. *)
Lemma conforming_reply_with_no_card :
  parse {| pydantic_object := FlashcardSet |} reply_no_cards
  = Ok (VObj "FlashcardSet" [("title", VStr ""); ("flashcards", VList [])])
  /\ outcome (generate_flashcards {| llm := replies reply_no_cards |}
                "Python Programming" 5 None None None None ∅)
     = Ok (VObj "FlashcardSet" [("title", VStr ""); ("flashcards", VList [])])
  /\ count_flashcards
       (outcome (generate_flashcards {| llm := replies reply_no_cards |}
                   "Python Programming" 5 None None None None ∅))
     <> Ok 5%Z.
Proof.
  split; [vm_compute; reflexivity | ].
  split; [vm_compute; reflexivity | ].
  vm_compute. discriminate.
Qed.

(** The statement amended for C2 at a reply of two cards to a call for 5. *)
Lemma conforming_reply_is_returned_witness :
  exists text,
    generate_flashcards {| llm := replies reply_two_cards |}
      "Cells" 5 None None None None ∅ =
    ([Invoke text],
     Ok (VObj "FlashcardSet"
           [("title", VStr "Cells");
            ("flashcards",
             VList [VObj "Flashcard" [("front", VStr "Nucleus");
                                      ("back", VStr "Holds the DNA");
                                      ("explanation", VNone)];
                    VObj "Flashcard" [("front", VStr "Ribosome");
                                      ("back", VStr "Builds proteins");
                                      ("explanation", VNone)]])])).
Proof.
  eexists.
  apply (conforming_reply_is_returned
           {| llm := replies reply_two_cards |} "Cells" 5 None None None ∅
           _ {| content := reply_two_cards |}).
  - vm_compute. reflexivity.
  - reflexivity.
  - vm_compute. reflexivity.
Defined.

(** C3 fails as stated: a call for 1 card returns the 2 cards of the reply,
    and a reply that conforms and lists no card gives 0 cards on the success
    path, where nothing is printed. *)
Lemma more_cards_than_asked_and_none_on_success :
  count_flashcards
    (outcome (generate_flashcards {| llm := replies reply_two_cards |}
                "Cells" 1 None None None None ∅)) = Ok 2%Z
  /\ ~ (0 <= 2 <= 1)%Z
  /\ count_flashcards
       (outcome (generate_flashcards {| llm := replies reply_no_cards |}
                   "Cells" 1 None None None None ∅)) = Ok 0%Z
  /\ existsb is_print
       (trace (generate_flashcards {| llm := replies reply_no_cards |}
                 "Cells" 1 None None None None ∅)) = false
  /\ parse {| pydantic_object := FlashcardSet |} reply_no_cards
     = Ok (VObj "FlashcardSet" [("title", VStr ""); ("flashcards", VList [])]).
Proof.
  split; [vm_compute; reflexivity | ].
  split; [lia | ].
  split; [vm_compute; reflexivity | ].
  split; vm_compute; reflexivity.
Qed.

(** The statement amended for C3 on both paths: a reply of two cards and a
    reply that is no JSON document, to a call for 1. *)
Lemma flashcards_length_by_path_witness :
  (exists v cards,
     outcome (generate_flashcards {| llm := replies reply_two_cards |}
                "Cells" 1 None None None None ∅) = Ok v
     /\ getattr v "flashcards" = Ok (VList cards)
     /\ match parse {| pydantic_object := FlashcardSet |} reply_two_cards with
        | Raise _ => cards = []
        | Ok _ =>
            exists members items,
              decode reply_two_cards = Ok (JObject members)
              /\ jget "flashcards" members = Some (JArray items)
              /\ length cards = length items
        end)
  /\ (exists v cards,
        outcome (generate_flashcards
                   {| llm := replies "Here are your flashcards." |}
                   "Cells" 1 None None None None ∅) = Ok v
        /\ getattr v "flashcards" = Ok (VList cards)
        /\ match parse {| pydantic_object := FlashcardSet |} "Here are your flashcards." with
           | Raise _ => cards = []
           | Ok _ =>
               exists members items,
                 decode "Here are your flashcards." = Ok (JObject members)
                 /\ jget "flashcards" members = Some (JArray items)
                 /\ length cards = length items
           end).
Proof.
  split.
  - eapply (flashcards_length_by_path
              {| llm := replies reply_two_cards |} "Cells" 1 None None None ∅
              _ {| content := reply_two_cards |}).
    + vm_compute. reflexivity.
    + reflexivity.
  - eapply (flashcards_length_by_path
              {| llm := replies "Here are your flashcards." |} "Cells" 1 None None None ∅
              _ {| content := "Here are your flashcards." |}).
    + vm_compute. reflexivity.
    + reflexivity.
Defined.

(** C4 fails as stated: with a template of the caller's that has a field
    [level] and no keyword argument for it, the call raises before any
    prompt is sent, although the remote model would have answered every
    prompt. *)
Lemma field_without_value_raises :
  generate_flashcards {| llm := replies reply_two_cards |}
    "Cells" 5 (Some leveled_template) None None None ∅
  = ([], Raise (KeyError ["level"]))
  /\ (forall prompt,
        llm_to_use {| llm := replies reply_two_cards |} None prompt
        = Ok {| content := reply_two_cards |}).
Proof.
  split; [vm_compute; reflexivity | ].
  intros prompt. reflexivity.
Qed.

(** The statement amended for C4 at a remote model out of reach. *)
Lemma raises_iff_prompt_or_remote_fails_witness :
  prompt_text "Cells" 5 None (Some "Focus on advanced topics only") None ∅
  = Ok (default_prompt_with "Cells" 5 (Some "Focus on advanced topics only")
          (get_format_instructions {| pydantic_object := FlashcardSet |}))
  /\ (outcome (generate_flashcards {| llm := unreachable |} "Cells" 5 None
                 (Some "Focus on advanced topics only") None None ∅)
      = Raise (RemoteError "APIConnectionError")
      <->
      llm_to_use {| llm := unreachable |} None
        (default_prompt_with "Cells" 5 (Some "Focus on advanced topics only")
           (get_format_instructions {| pydantic_object := FlashcardSet |}))
      = Raise (RemoteError "APIConnectionError")).
Proof.
  apply (raises_iff_prompt_or_remote_fails {| llm := unreachable |} "Cells" 5 None
           (Some "Focus on advanced topics only") None None ∅
           (RemoteError "APIConnectionError")).
  reflexivity.
Defined.



(** C6 at its failing inputs.  Doubled braces in the custom instructions
    reach the remote model as single ones, so the prompt sent does not
    contain the instructions as they were given. *)
Lemma doubled_braces_are_not_verbatim :
  exists text,
    invocations
      (trace (generate_flashcards {| llm := replies reply_two_cards |}
                "Set theory" 5 None (Some "Write sets as {{a, b}}") None None ∅))
    = [text]
    /\ contains text "Write sets as {{a, b}}" = false
    /\ contains text "Write sets as {a, b}" = true.
Proof.
  eexists. split; [vm_compute; reflexivity | ].
  split; vm_compute; reflexivity.
Qed.

(** Single braces in the custom instructions are read as a field, which has
    no value: the call raises before any prompt is sent. *)
Lemma single_braces_in_instructions_raise :
  generate_flashcards {| llm := replies reply_two_cards |}
    "Set theory" 5 None (Some "Write sets as {a, b}") None None ∅
  = ([], Raise (KeyError ["a, b"])).
Proof. vm_compute. reflexivity. Qed.

(** The statement of C8 at the model [Quiz] and a reply that is no JSON
    document. *)
Lemma custom_model_failure_returns_default_schema_witness :
  outcome (generate_flashcards {| llm := replies "Sorry, I cannot." |}
             "Cells" 5 None None (Some Quiz) None ∅)
  = Ok (VObj "FlashcardSet" [("title", VStr "Cells"); ("flashcards", VList [])])
  /\ isinstance (VObj "FlashcardSet" [("title", VStr "Cells"); ("flashcards", VList [])])
       (model_name FlashcardSet) = true
  /\ isinstance (VObj "FlashcardSet" [("title", VStr "Cells"); ("flashcards", VList [])])
       (model_name Quiz) = false
  /\ (forall text' v,
        parse {| pydantic_object := Quiz |} text' = Ok v ->
        isinstance v (model_name Quiz) = true).
Proof.
  eapply (custom_model_failure_returns_default_schema
            {| llm := replies "Sorry, I cannot." |} "Cells" 5 None None Quiz None ∅
            _ {| content := "Sorry, I cannot." |}).
  - discriminate.
  - vm_compute. reflexivity.
  - reflexivity.
  - vm_compute. reflexivity.
Defined.

(** The statement of C9 at a topic that is a single blank. *)
Lemma nonempty_topic_generates_witness :
  exists text rest r,
    prompt_text " " 5 None None None ∅ = Ok text
    /\ generate_button {| llm := replies reply_two_cards |} " " 5 true
       = (Spinner "🧠 Generating flashcards..." :: Invoke text :: rest, r)
    /\ existsb is_warning
         (trace (generate_button {| llm := replies reply_two_cards |}
                   " " 5 true)) = false.
Proof.
  apply (nonempty_topic_generates
           {| llm := replies reply_two_cards |} " " 5).
  discriminate.
Defined.

(** * Further properties *)

(** ** The display of a set *)

Lemma getattr_front (c : card) : getattr (card_value c) "front" = Ok (VStr (front c)).
Proof. reflexivity. Qed.

Lemma getattr_back (c : card) : getattr (card_value c) "back" = Ok (VStr (back c)).
Proof. reflexivity. Qed.

Lemma getattr_explanation (c : card) :
  getattr (card_value c) "explanation" = Ok (optional_text (explanation c)).
Proof. reflexivity. Qed.

Lemma getattr_title (title : string) (cards : list card) :
  getattr (set_value title cards) "title" = Ok (VStr title).
Proof. reflexivity. Qed.

Lemma getattr_flashcards (title : string) (cards : list card) :
  getattr (set_value title cards) "flashcards" = Ok (VList (map card_value cards)).
Proof. reflexivity. Qed.

Lemma show_flashcards_typed (cards : list card) :
  forall i, show_flashcards i (map card_value cards) = (card_views i cards, Ok tt).
Proof.
  induction cards as [ | c rest IH]; intros i; [reflexivity | ].
  cbn [map show_flashcards card_views].
  rewrite getattr_front, getattr_back, getattr_explanation.
  rewrite bind_lift_ok, bind_emit, bind_lift_ok, bind_emit, bind_lift_ok.
  rewrite (IH (i + 1)%Z).
  unfold card_view.
  destruct (explanation c) as [s | ]; cbn [optional_text truthy].
  - destruct (String.eqb s ""); reflexivity.
  - reflexivity.
Qed.

Lemma display_typed (title : string) (cards : list card) :
  display (set_value title cards)
  = (success_message (Z.of_nat (length cards)) title :: card_views 1 cards, Ok tt).
Proof.
  unfold display. rewrite getattr_title, !getattr_flashcards.
  rewrite bind_lift_ok. cbn [len]. rewrite bind_lift_ok, bind_lift_ok, bind_emit.
  rewrite bind_lift_ok. cbn [iterate]. rewrite bind_lift_ok.
  rewrite show_flashcards_typed, length_map. reflexivity.
Qed.

(** ** Counting *)

Lemma count_expanders_app (t1 t2 : list event) :
  count_expanders (t1 ++ t2) = count_expanders t1 + count_expanders t2.
Proof. induction t1 as [ | ev t1 IH]; cbn; [reflexivity | rewrite IH; lia]. Qed.

Lemma count_expanders_views (cards : list card) :
  forall i, count_expanders (card_views i cards) = length cards.
Proof.
  induction cards as [ | c rest IH]; intros i; [reflexivity | ].
  cbn [card_views length]. rewrite count_expanders_app, IH.
  unfold card_view. destruct (explanation c) as [s | ]; [destruct (String.eqb s "") | ];
    reflexivity.
Qed.

Section ParserContract.

Context {reader : JsonReader}.

(** X5. The parser for [FlashcardSet] accepts a reply exactly when the
    value read from it is an object whose [title] is text and whose
    [flashcards] is an array of objects, each with text [front] and [back]
    and with [explanation] absent, null or text; the record it gives holds
    this title and these cards in the order of the reply, an absent or null
    explanation being [None].  Members of other names do not matter. *)
Theorem conforming_reply_characterised (text : string) (v : pyval) :
  parse {| pydantic_object := FlashcardSet |} text = Ok v
  <-> exists title cards,
        reply_set text = Some (title, cards) /\ v = set_value title cards.
Proof.
  pose proof (parse_reply_set text) as H.
  destruct (reply_set text) as [[title cards] | ].
  - rewrite H. split.
    + intros [= <-]. exists title, cards. split; reflexivity.
    + intros (title' & cards' & [= <- <-] & ->). reflexivity.
  - destruct H as [e ->]. split.
    + discriminate.
    + intros (title & cards & Hnone & _). discriminate.
Qed.

End ParserContract.

Section FurtherFacts.

Context {library : FormatInstructions} {reader : JsonReader} {prompts : PromptLibrary}.

(** The run of the button, by how the generation ends. *)
Lemma generate_button_run content_engine topic num_cards :
  topic <> "" ->
  generate_button content_engine topic num_cards true =
  match generate_flashcards content_engine topic num_cards None None None None ∅ with
  | (t, Ok flashcard_set) =>
      (Spinner "🧠 Generating flashcards..." :: t ++ trace (display flashcard_set),
       outcome (display flashcard_set))
  | (t, Raise e) => (Spinner "🧠 Generating flashcards..." :: t, Raise e)
  end.
Proof.
  intros Hne. apply String.eqb_neq in Hne.
  unfold generate_button. rewrite Hne. cbn [negb].
  rewrite bind_emit.
  fold (display).
  change (generate_flashcards content_engine topic num_cards None None None None ∅
          ≫= _)
    with (flashcard_set ← generate_flashcards content_engine topic num_cards
                            None None None None ∅;
          display flashcard_set).
  destruct (generate_flashcards content_engine topic num_cards None None None None ∅)
    as [t [v | e]]; unfold mbind, py_bind, bind; cbn [trace outcome fst snd].
  - destruct (display v); reflexivity.
  - reflexivity.
Qed.

(** X1. A call with the default template, no custom instructions and no
    further keyword argument, the way the page calls, always composes its
    prompt: the default template with the count and the topic put in as
    they are (braces in the topic are not read as fields), the closing lines
    and the format instructions.  Such a call raises exactly when the remote
    call on that prompt fails. *)
Theorem default_call_raises_iff_remote_fails self topic num response_model llm e :
  prompt_text topic num None None response_model ∅
  = Ok (default_prompt topic num
          (get_format_instructions {| pydantic_object := chosen_model response_model |}))
  /\ (outcome (generate_flashcards self topic num None None response_model llm ∅)
      = Raise e
      <-> llm_to_use self llm
            (default_prompt topic num
               (get_format_instructions
                  {| pydantic_object := chosen_model response_model |}))
          = Raise e).
Proof.
  split; [apply default_prompt_text | ].
  rewrite generate_flashcards_run, default_prompt_text.
  destruct (llm_to_use self llm _) as [results | e'].
  - unfold after_reply. destruct (parse _ _); cbn; split; discriminate.
  - cbn. split; intros [= <-]; reflexivity.
Qed.

(** X8. With a topic, when the remote model answers with a conforming
    reply, pressing the button shows, after the spinner and the remote
    call, the success message with the number of cards and the title of the
    reply, then each card in the order of the reply, numbered from 1: an
    expander labelled with its front, its back, and its explanation when
    that is a non-empty text.  The run ends without an exception. *)
Theorem button_shows_reply content_engine topic num_cards results v :
  topic <> "" ->
  llm content_engine
    (default_prompt topic num_cards
       (get_format_instructions {| pydantic_object := FlashcardSet |})) = Ok results ->
  parse {| pydantic_object := FlashcardSet |} (content results) = Ok v ->
  exists title cards,
    reply_set (content results) = Some (title, cards)
    /\ v = set_value title cards
    /\ generate_button content_engine topic num_cards true =
       (Spinner "🧠 Generating flashcards..."
        :: Invoke (default_prompt topic num_cards
                     (get_format_instructions {| pydantic_object := FlashcardSet |}))
        :: success_message (Z.of_nat (length cards)) title
        :: card_views 1 cards,
        Ok tt).
Proof.
  intros Hne Hllm Hparse.
  pose proof (parse_reply_set (content results)) as Hset.
  destruct (reply_set (content results)) as [[title cards] | ];
    [ | destruct Hset as [e He]; congruence].
  exists title, cards. split; [reflexivity | ].
  split; [congruence | ].
  rewrite (generate_button_run _ _ _ Hne), generate_flashcards_run, default_prompt_text.
  cbn [chosen_model llm_to_use]. unfold self_llm. rewrite Hllm.
  unfold after_reply; cbn [chosen_model]. rewrite Hset.
  cbn [trace outcome fst snd]. rewrite display_typed. reflexivity.
Qed.

(** X9. With a topic, when the remote model answers with a reply that
    does not parse, pressing the button prints the diagnostic and shows the
    success message for 0 flashcards under the topic, with no card and no
    other message; the run ends without an exception. *)
Theorem button_reports_zero_on_parse_failure content_engine topic num_cards results e :
  topic <> "" ->
  llm content_engine
    (default_prompt topic num_cards
       (get_format_instructions {| pydantic_object := FlashcardSet |})) = Ok results ->
  parse {| pydantic_object := FlashcardSet |} (content results) = Raise e ->
  generate_button content_engine topic num_cards true =
  ([Spinner "🧠 Generating flashcards...";
    Invoke (default_prompt topic num_cards
              (get_format_instructions {| pydantic_object := FlashcardSet |}));
    Print [FLit "Error parsing output: "; FExn e];
    Print [FLit "Raw output:"];
    Print [FVal (VStr (content results))];
    success_message 0 topic],
   Ok tt).
Proof.
  intros Hne Hllm Hparse.
  rewrite (generate_button_run _ _ _ Hne), generate_flashcards_run, default_prompt_text.
  cbn [chosen_model llm_to_use]. unfold self_llm. rewrite Hllm.
  unfold after_reply; cbn [chosen_model]. rewrite Hparse.
  cbn [trace outcome fst snd].
  change (fallback topic) with (set_value topic []).
  rewrite display_typed. reflexivity.
Qed.

(** X10. With a topic, the run of the button raises exactly when the
    remote call fails; it then stops after the spinner and the call, with
    no success message and no card shown.  Whatever a remote model answers,
    showing it never raises. *)
Theorem button_raises_iff_remote_fails content_engine topic num_cards e :
  topic <> "" ->
  (outcome (generate_button content_engine topic num_cards true) = Raise e
   <-> llm content_engine
         (default_prompt topic num_cards
            (get_format_instructions {| pydantic_object := FlashcardSet |})) = Raise e)
  /\ (llm content_engine
        (default_prompt topic num_cards
           (get_format_instructions {| pydantic_object := FlashcardSet |})) = Raise e ->
      generate_button content_engine topic num_cards true =
      ([Spinner "🧠 Generating flashcards...";
        Invoke (default_prompt topic num_cards
                  (get_format_instructions {| pydantic_object := FlashcardSet |}))],
       Raise e)).
Proof.
  intros Hne.
  rewrite (generate_button_run _ _ _ Hne), generate_flashcards_run, default_prompt_text.
  cbn [chosen_model llm_to_use]. unfold self_llm.
  destruct (llm content_engine _) as [results | e'].
  - unfold after_reply; cbn [chosen_model].
    pose proof (parse_reply_set (content results)) as Hset.
    destruct (reply_set (content results)) as [[title cards] | ].
    + rewrite Hset. cbn [trace outcome fst snd]. rewrite display_typed.
      cbn. split; [split | ]; discriminate.
    + destruct Hset as [e0 ->]. cbn [trace outcome fst snd].
      change (fallback topic) with (set_value topic []).
      rewrite display_typed. cbn. split; [split | ]; discriminate.
  - cbn. split; [split | ]; intros [= <-]; reflexivity.
Qed.

(** X11. With a topic and a conforming reply, the number the success
    message announces, the number of expanders shown and the number of items
    in the list of the value read from the reply are the same. *)
Theorem every_card_shown_once content_engine topic num_cards results v :
  topic <> "" ->
  llm content_engine
    (default_prompt topic num_cards
       (get_format_instructions {| pydantic_object := FlashcardSet |})) = Ok results ->
  parse {| pydantic_object := FlashcardSet |} (content results) = Ok v ->
  exists members title items,
    decode (content results) = Ok (JObject members)
    /\ jget "title" members = Some (JString title)
    /\ jget "flashcards" members = Some (JArray items)
    /\ In (success_message (Z.of_nat (length items)) title)
         (trace (generate_button content_engine topic num_cards true))
    /\ count_expanders (trace (generate_button content_engine topic num_cards true))
       = length items.
Proof.
  intros Hne Hllm Hparse.
  destruct (parse_FlashcardSet _ _ Hparse)
    as (members & title & items & cards & Hj & Ht & Hi & -> & Hcards).
  exists members, title, items.
  split; [assumption | ]. split; [assumption | ]. split; [assumption | ].
  rewrite (generate_button_run _ _ _ Hne), generate_flashcards_run, default_prompt_text.
  cbn [chosen_model llm_to_use]. unfold self_llm. rewrite Hllm.
  unfold after_reply; cbn [chosen_model]. rewrite Hparse.
  cbn [trace outcome fst snd app]. rewrite display_typed.
  rewrite <- (cards_of_json_length _ _ Hcards).
  split.
  - cbn [trace fst In]. right. right. left. reflexivity.
  - cbn [trace fst count_expanders is_expander success_message Nat.add].
    apply count_expanders_views.
Qed.

(** X7. One item of the reply that is no card (no [front], no [back], or
    a field of the wrong type) discards the whole reply: the call returns
    the topic with no card, whatever the other items are. *)
Theorem one_bad_card_discards_all self topic num prompt_template custom_instructions
    llm kwargs text results members items j :
  prompt_text topic num prompt_template custom_instructions None kwargs = Ok text ->
  llm_to_use self llm text = Ok results ->
  decode (content results) = Ok (JObject members) ->
  jget "flashcards" members = Some (JArray items) ->
  In j items ->
  card_of_json j = None ->
  outcome (generate_flashcards self topic num prompt_template custom_instructions
             None llm kwargs) = Ok (set_value topic [])
  /\ count_flashcards
       (outcome (generate_flashcards self topic num prompt_template custom_instructions
                   None llm kwargs)) = Ok 0%Z.
Proof.
  intros Hprompt Hllm Hdecode Hitems Hin Hbad.
  assert (Hout : outcome (generate_flashcards self topic num prompt_template
                            custom_instructions None llm kwargs)
                 = Ok (set_value topic [])).
  { rewrite generate_flashcards_run, Hprompt, Hllm.
    unfold after_reply; cbn [chosen_model].
    pose proof (parse_reply_set (content results)) as Hset.
    unfold reply_set in Hset. rewrite Hdecode in Hset. cbn [set_of_json] in Hset.
    rewrite Hitems, (cards_of_json_bad _ _ Hin Hbad) in Hset.
    assert (Hnone : match jget "title" members with
                    | Some (JString _) => @None (string * list card)
                    | _ => None
                    end = None).
    { destruct (jget "title" members) as [[ | | | ? | | | ] | ]; reflexivity. }
    rewrite Hnone in Hset. destruct Hset as [e ->]. reflexivity. }
  split; [exact Hout | ]. rewrite Hout. reflexivity.
Qed.

(** X6. Whenever the remote model answers, a call with the declared schema
    returns a well-formed [FlashcardSet]: a text title and cards that each
    have a text front, a text back and an explanation that is text or
    [None].  It is the set of the value read from the reply when that is
    one, and the topic with no card otherwise. *)
Theorem returned_record_is_well_formed self topic num prompt_template
    custom_instructions llm kwargs text results :
  prompt_text topic num prompt_template custom_instructions None kwargs = Ok text ->
  llm_to_use self llm text = Ok results ->
  exists title cards,
    outcome (generate_flashcards self topic num prompt_template custom_instructions
               None llm kwargs) = Ok (set_value title cards)
    /\ (reply_set (content results) = Some (title, cards)
        \/ reply_set (content results) = None /\ title = topic /\ cards = []).
Proof.
  intros Hprompt Hllm.
  rewrite generate_flashcards_run, Hprompt, Hllm.
  unfold after_reply; cbn [chosen_model].
  pose proof (parse_reply_set (content results)) as Hset.
  destruct (reply_set (content results)) as [[title cards] | ].
  - rewrite Hset. exists title, cards. split; [reflexivity | left; reflexivity].
  - destruct Hset as [e ->]. exists topic, []. split; [reflexivity | ].
    right. repeat split.
Qed.

(** X3. A call invokes the remote model at most once, also when the
    answer does not parse: there is no second attempt.  It invokes it once
    exactly when the prompt is composed. *)
Theorem at_most_one_remote_call self topic num prompt_template custom_instructions
    response_model llm kwargs :
  (length (invocations (trace (generate_flashcards self topic num prompt_template
                                 custom_instructions response_model llm kwargs))) <= 1)%nat
  /\ (length (invocations (trace (generate_flashcards self topic num prompt_template
                                    custom_instructions response_model llm kwargs))) = 1%nat
      <-> exists text,
            prompt_text topic num prompt_template custom_instructions response_model
              kwargs = Ok text).
Proof.
  rewrite invocations_run.
  destruct (prompt_text _ _ _ _ _ _) as [text | e]; cbn [length].
  - split; [lia | ]. split; [eauto | reflexivity].
  - split; [lia | ]. split; [discriminate | intros [text H]; discriminate].
Qed.

(** X4. A call prints exactly when the remote model answered and the
    answer did not parse; nothing is printed on success, on a failure of the
    remote call, or when the prompt is not composed. *)
Theorem prints_iff_parse_failure self topic num prompt_template custom_instructions
    response_model llm kwargs :
  existsb is_print
    (trace (generate_flashcards self topic num prompt_template custom_instructions
              response_model llm kwargs)) = true
  <-> exists text results e,
        prompt_text topic num prompt_template custom_instructions response_model kwargs
          = Ok text
        /\ llm_to_use self llm text = Ok results
        /\ parse {| pydantic_object := chosen_model response_model |} (content results)
           = Raise e.
Proof.
  rewrite generate_flashcards_run.
  destruct (prompt_text _ _ _ _ _ _) as [text | e0].
  - destruct (llm_to_use self llm text) as [results | e1] eqn:Hllm.
    + unfold after_reply.
      destruct (parse _ (content results)) as [v | e2] eqn:Hparse; cbn.
      * split; [discriminate | ].
        intros (text' & results' & e & [= <-] & Hllm' & Hparse'). congruence.
      * split; [ | reflexivity]. intros _. exists text, results, e2. auto.
    + cbn. split; [discriminate | ].
      intros (text' & results' & e & [= <-] & Hllm' & _). congruence.
  - cbn. split; [discriminate | ].
    intros (text' & results' & e & H & _). discriminate.
Qed.

End FurtherFacts.

(** ** The script *)

Lemma in_map_shown (ev : page_event) (t : list event) :
  In ev (map Shown t) -> exists e, ev = Shown e.
Proof.
  induction t as [ | e t IH]; [intros [] | ].
  intros [<- | H]; [eauto | exact (IH H)].
Qed.

Section ScriptFacts.

Context {library : FormatInstructions} {reader : JsonReader} {prompts : PromptLibrary}
        {client : OpenAIClient}.

(** X13. A run of the script that raises shows neither the footer nor the
    style sheet; when the secret [OPENAI_API_KEY] is missing it shows
    nothing at all. *)
Theorem aborted_run_shows_no_footer (secrets : gmap string string) (w : widgets) (e : exn) :
  snd (script secrets w) = Raise e ->
  ~ In (StMarkdown footer_html true) (fst (script secrets w))
  /\ ~ In (StMarkdown style_html true) (fst (script secrets w))
  /\ (secrets !! "OPENAI_API_KEY" = None -> fst (script secrets w) = []).
Proof.
  unfold script.
  destruct (secrets !! "OPENAI_API_KEY") as [key | ].
  - destruct (new_ContentEngine _) as [content_engine | e0].
    + destruct (generate_button content_engine _ _ _) as [t [[] | e1]];
        cbn [fst snd]; [discriminate | ].
      intros _.
      assert (Hno : forall body, body <> intro_text ->
                ~ In (StMarkdown body true) (page_head ++ map Shown t)).
      { intros body Hbody Hin. apply in_app_or in Hin as [Hin | Hin].
        - cbn in Hin.
          repeat (destruct Hin as [Hin | Hin]; [discriminate Hin | ]).
          exact Hin.
        - apply in_map_shown in Hin as [ev Hev]. discriminate. }
      split; [ | split]; [apply Hno | apply Hno | discriminate].
      * intros H. apply (f_equal String.length) in H. vm_compute in H. discriminate.
      * intros H. apply (f_equal String.length) in H. vm_compute in H. discriminate.
    + cbn [fst snd]. intros _. split; [ | split]; [intros [] | intros [] | discriminate].
  - cbn [fst snd]. intros _. split; [ | split]; [intros [] | intros [] | reflexivity].
Qed.

(** X14. A run of the script that ends without an exception had its secret
    and built its engine on it, and shows the head of the page, then what
    the handler of the button showed in that run, which ended without an
    exception, then the rule, the footer and the style sheet. *)
Theorem completed_run_ends_with_footer (secrets : gmap string string) (w : widgets) :
  snd (script secrets w) = Ok tt ->
  exists key content_engine,
    secrets !! "OPENAI_API_KEY" = Some key
    /\ new_ContentEngine (Some (LLMConfig.with_api_key key)) = Ok content_engine
    /\ outcome (generate_button content_engine (topic_value w) (num_cards_value w)
                  (button_value w)) = Ok tt
    /\ fst (script secrets w)
       = page_head
         ++ map Shown (trace (generate_button content_engine (topic_value w)
                                (num_cards_value w) (button_value w)))
         ++ page_foot.
Proof.
  unfold script.
  destruct (secrets !! "OPENAI_API_KEY") as [key | ]; [ | discriminate].
  destruct (new_ContentEngine _) as [content_engine | e0] eqn:Hengine; [ | discriminate].
  destruct (generate_button content_engine _ _ _) as [t [[] | e1]] eqn:Hrun;
    cbn [fst snd]; [ | discriminate].
  intros _. exists key, content_engine.
  split; [reflexivity | ]. split; [exact Hengine | ].
  rewrite Hrun. split; reflexivity.
Qed.

(** X15. While the button is not pressed the script does not look at the
    topic or the count: two runs with the same secrets give the same page,
    and nothing of the handler is shown. *)
Theorem idle_run_is_static (secrets : gmap string string) (w1 w2 : widgets) :
  button_value w1 = false ->
  button_value w2 = false ->
  script secrets w1 = script secrets w2
  /\ (forall ev, ~ In (Shown ev) (fst (script secrets w1))).
Proof.
  intros H1 H2. unfold script. rewrite H1, H2.
  destruct (secrets !! "OPENAI_API_KEY") as [key | ].
  - destruct (new_ContentEngine _) as [content_engine | e0].
    + cbn. split; [reflexivity | ].
      intros ev Hin.
      repeat (destruct Hin as [Hin | Hin]; [discriminate Hin | ]). exact Hin.
    + cbn. split; [reflexivity | intros ev []].
  - cbn. split; [reflexivity | intros ev []].
Qed.

End ScriptFacts.

(** * Evaluated runs of the further properties *)

(** X8 at a reply of two cards. *)
Lemma button_shows_reply_witness :
  exists title cards,
    reply_set reply_two_cards = Some (title, cards)
    /\ VObj "FlashcardSet"
         [("title", VStr "Cells");
          ("flashcards",
           VList [VObj "Flashcard" [("front", VStr "Nucleus");
                                    ("back", VStr "Holds the DNA");
                                    ("explanation", VNone)];
                  VObj "Flashcard" [("front", VStr "Ribosome");
                                    ("back", VStr "Builds proteins");
                                    ("explanation", VNone)]])]
       = set_value title cards
    /\ generate_button {| llm := replies reply_two_cards |} "Cells" 5 true =
       (Spinner "🧠 Generating flashcards..."
        :: Invoke (default_prompt "Cells" 5
                     (get_format_instructions {| pydantic_object := FlashcardSet |}))
        :: success_message (Z.of_nat (length cards)) title
        :: card_views 1 cards,
        Ok tt).
Proof.
  apply (button_shows_reply {| llm := replies reply_two_cards |} "Cells" 5
           {| content := reply_two_cards |}).
  - discriminate.
  - reflexivity.
  - vm_compute. reflexivity.
Defined.

(** X9 at a reply that is plain prose. *)
Lemma button_reports_zero_on_parse_failure_witness :
  generate_button {| llm := replies "Here are your flashcards." |} "Cells" 5 true =
  ([Spinner "🧠 Generating flashcards...";
    Invoke (default_prompt "Cells" 5
              (get_format_instructions {| pydantic_object := FlashcardSet |}));
    Print [FLit "Error parsing output: "; FExn (OutputParserException JSONDecodeError)];
    Print [FLit "Raw output:"];
    Print [FVal (VStr "Here are your flashcards.")];
    success_message 0 "Cells"],
   Ok tt).
Proof.
  apply (button_reports_zero_on_parse_failure
           {| llm := replies "Here are your flashcards." |} "Cells" 5
           {| content := "Here are your flashcards." |}).
  - discriminate.
  - reflexivity.
  - vm_compute. reflexivity.
Defined.

(** X10 at a remote model out of reach. *)
Lemma button_raises_iff_remote_fails_witness :
  (outcome (generate_button {| llm := unreachable |} "Cells" 5 true)
   = Raise (RemoteError "APIConnectionError")
   <-> unreachable
         (default_prompt "Cells" 5
            (get_format_instructions {| pydantic_object := FlashcardSet |}))
       = Raise (RemoteError "APIConnectionError"))
  /\ (unreachable
        (default_prompt "Cells" 5
           (get_format_instructions {| pydantic_object := FlashcardSet |}))
      = Raise (RemoteError "APIConnectionError") ->
      generate_button {| llm := unreachable |} "Cells" 5 true =
      ([Spinner "🧠 Generating flashcards...";
        Invoke (default_prompt "Cells" 5
                  (get_format_instructions {| pydantic_object := FlashcardSet |}))],
       Raise (RemoteError "APIConnectionError"))).
Proof.
  apply (button_raises_iff_remote_fails {| llm := unreachable |} "Cells" 5
           (RemoteError "APIConnectionError")).
  discriminate.
Defined.

(** X11 at a reply of two cards. *)
Lemma every_card_shown_once_witness :
  exists members title items,
    decode reply_two_cards = Ok (JObject members)
    /\ jget "title" members = Some (JString title)
    /\ jget "flashcards" members = Some (JArray items)
    /\ In (success_message (Z.of_nat (length items)) title)
         (trace (generate_button {| llm := replies reply_two_cards |} "Cells" 5 true))
    /\ count_expanders
         (trace (generate_button {| llm := replies reply_two_cards |} "Cells" 5 true))
       = length items.
Proof.
  eapply (every_card_shown_once {| llm := replies reply_two_cards |} "Cells" 5
            {| content := reply_two_cards |}).
  - discriminate.
  - reflexivity.
  - vm_compute. reflexivity.
Defined.

(** X7 at a reply whose second item has no [back]. *)
Lemma one_bad_card_discards_all_witness :
  outcome (generate_flashcards {| llm := replies reply_second_card_bad |}
             "Cells" 5 None None None None ∅) = Ok (set_value "Cells" [])
  /\ count_flashcards
       (outcome (generate_flashcards {| llm := replies reply_second_card_bad |}
                   "Cells" 5 None None None None ∅)) = Ok 0%Z.
Proof.
  eapply (one_bad_card_discards_all {| llm := replies reply_second_card_bad |}
            "Cells" 5 None None None ∅ _ {| content := reply_second_card_bad |}
            _ _ (JObject [("front", JString "Ribosome")])).
  - vm_compute. reflexivity.
  - reflexivity.
  - vm_compute. reflexivity.
  - vm_compute. reflexivity.
  - simpl. right. left. reflexivity.
  - vm_compute. reflexivity.
Defined.

(** X6 at a reply of two cards. *)
Lemma returned_record_is_well_formed_witness :
  exists title cards,
    outcome (generate_flashcards {| llm := replies reply_two_cards |}
               "Cells" 5 None None None None ∅) = Ok (set_value title cards)
    /\ (reply_set reply_two_cards = Some (title, cards)
        \/ reply_set reply_two_cards = None /\ title = "Cells" /\ cards = []).
Proof.
  eapply (returned_record_is_well_formed {| llm := replies reply_two_cards |}
            "Cells" 5 None None None ∅ _ {| content := reply_two_cards |}).
  - vm_compute. reflexivity.
  - reflexivity.
Defined.

(** X13 at a run where the remote call fails. *)
Lemma aborted_run_shows_no_footer_witness :
  ~ In (StMarkdown footer_html true)
      (fst (script (client := client_of unreachable) {[ "OPENAI_API_KEY" := "sk-test" ]}
          {| topic_value := "Cells"; num_cards_value := 5; button_value := true |}))
  /\ ~ In (StMarkdown style_html true)
        (fst (script (client := client_of unreachable) {[ "OPENAI_API_KEY" := "sk-test" ]}
          {| topic_value := "Cells"; num_cards_value := 5; button_value := true |}))
  /\ (({[ "OPENAI_API_KEY" := "sk-test" ]} : gmap string string) !! "OPENAI_API_KEY"
      = None ->
      fst (script (client := client_of unreachable) {[ "OPENAI_API_KEY" := "sk-test" ]}
          {| topic_value := "Cells"; num_cards_value := 5; button_value := true |}) = []).
Proof.
  apply (aborted_run_shows_no_footer (client := client_of unreachable)
           {[ "OPENAI_API_KEY" := "sk-test" ]}
           {| topic_value := "Cells"; num_cards_value := 5; button_value := true |}
           (RemoteError "APIConnectionError")).
  vm_compute. reflexivity.
Defined.

(** X14 at a run with a reply of two cards. *)
Lemma completed_run_ends_with_footer_witness :
  exists key content_engine,
    ({[ "OPENAI_API_KEY" := "sk-test" ]} : gmap string string) !! "OPENAI_API_KEY"
    = Some key
    /\ new_ContentEngine (client := client_of (replies reply_two_cards))
         (Some (LLMConfig.with_api_key key)) = Ok content_engine
    /\ outcome (generate_button content_engine "Cells" 5 true) = Ok tt
    /\ fst (script (client := client_of (replies reply_two_cards))
              {[ "OPENAI_API_KEY" := "sk-test" ]}
              {| topic_value := "Cells"; num_cards_value := 5; button_value := true |})
       = page_head ++ map Shown (trace (generate_button content_engine "Cells" 5 true))
         ++ page_foot.
Proof.
  apply (completed_run_ends_with_footer (client := client_of (replies reply_two_cards))
           {[ "OPENAI_API_KEY" := "sk-test" ]}
           {| topic_value := "Cells"; num_cards_value := 5; button_value := true |}).
  vm_compute. reflexivity.
Defined.

(** X15 at two runs that differ in the topic and the count. *)
Lemma idle_run_is_static_witness :
  script (client := client_of unreachable) {[ "OPENAI_API_KEY" := "sk-test" ]}
    {| topic_value := "Cells"; num_cards_value := 5; button_value := false |}
  = script (client := client_of unreachable) {[ "OPENAI_API_KEY" := "sk-test" ]}
      {| topic_value := ""; num_cards_value := 20; button_value := false |}
  /\ (forall ev,
        ~ In (Shown ev)
            (fst (script (client := client_of unreachable)
                    {[ "OPENAI_API_KEY" := "sk-test" ]}
                    {| topic_value := "Cells"; num_cards_value := 5;
                       button_value := false |}))).
Proof.
  apply (idle_run_is_static (client := client_of unreachable)); reflexivity.
Defined.
